(** * Salesforce MCP connector: session lifecycle of [SalesforceClient]

    A shallow embedding of the authenticated request path of the
    connector: [config/config.ts] (endpoint construction and
    validation), [auth/password-auth.ts] (password grant and token
    refresh) and [client/salesforce-client.ts] (connection strategies,
    the request executor with its single retry on 401, pagination and
    the metadata cache).

    The remote service is a pair of deterministic oracles that see the
    history of calls issued so far; every call made through [axios] is
    appended to that history, so "no network call" and "exactly n
    requests" are statements about the history. *)

From Stdlib Require Import ZArith Lia Ascii String.
From stdpp Require Import base option list strings pretty gmap.

Open Scope string_scope.
Open Scope list_scope.

(** ** JavaScript values as the code uses them *)

(** An optional string property ([string | undefined], [string | null]).
    [truthy] is the JavaScript coercion used by [if (x)], [!x], [&&]:
    absent values and the empty string are falsy. *)
Definition truthy (o : option string) : bool :=
  match o with
  | Some s => negb (String.eqb s "")
  | None => false
  end.

(** The same coercion on a string that is always present. *)
Definition nonempty (s : string) : bool := negb (String.eqb s "").

(** [`${x}`] for an optional string: an absent value prints as
    [undefined]. *)
Definition template (o : option string) : string :=
  match o with
  | Some s => s
  | None => "undefined"
  end.

(** [s.startsWith(p)] *)
Definition startsWith (p s : string) : bool := String.prefix p s.

(** [s.replace(pat, rep)] with a string pattern: only the first
    occurrence is replaced. *)
Definition replace (pat rep s : string) : string :=
  match String.index 0 pat s with
  | Some i =>
      String.substring 0 i s +:+ rep +:+
      String.substring (i + String.length pat)
                       (String.length s - (i + String.length pat)) s
  | None => s
  end.

(** [s.replace(/\/$/, '')]: drops one trailing slash. *)
Fixpoint stripTrailingSlash (s : string) : string :=
  match s with
  | EmptyString => EmptyString
  | String c EmptyString => if Ascii.eqb c "/"%char then EmptyString else s
  | String c rest => String c (stripTrailingSlash rest)
  end.

(** [a ?? b]: the right operand is used only when the left one is
    absent; an empty string on the left is kept. *)
Definition nullish (a b : option string) : option string :=
  match a with
  | Some s => Some s
  | None => b
  end.

(** [`${x}`] for a [string | null]. *)
Definition templateNull (o : option string) : string :=
  match o with
  | Some s => s
  | None => "null"
  end.

(** [s.toLowerCase()] on the letters A to Z. The code compares the
    result with ['true'] only, and no other character lowers to one of
    [t], [r], [u], [e]. *)
Definition lowerAscii (c : ascii) : ascii :=
  let n := nat_of_ascii c in
  if (65 <=? n)%nat && (n <=? 90)%nat then ascii_of_nat (n + 32) else c.

Fixpoint toLowerCase (s : string) : string :=
  match s with
  | EmptyString => EmptyString
  | String c rest => String (lowerAscii c) (toLowerCase rest)
  end.

(** The line feed of a template literal. *)
Definition newline : string := String (ascii_of_nat 10) EmptyString.

(** ** types/salesforce.ts *)

Inductive HttpMethod := GET | POST | PATCH | DELETE.

(** [string | number | boolean | null | undefined] *)
Inductive Scalar :=
| SString (s : string)
| SNumber (n : Z)
| SBoolean (b : bool)
| SNull.

(** [SalesforceRecordData] and [SalesforceApiParams]: string-keyed
    objects, in property order. *)
Definition SalesforceRecordData := list (string * Scalar).

Record SalesforceConfig := {
  clientId : string;
  clientSecret : string;
  username : option string;
  password : option string;
  securityToken : option string;
  sandbox : bool;
  accessToken : option string;
  instanceUrl : option string;
}.

(** The body of a 200 answer of the token endpoint. *)
Record SalesforceAuthResponse := {
  access_token : string;
  instance_url : string;
  auth_id : string;
  token_type : string;
  issued_at : string;
  signature : string;
  refresh_token : option string;
}.

(** The same body as [refreshAccessToken] types it: the interface has no
    [refresh_token] member. *)
Record SalesforceTokenRefreshResponse := {
  r_access_token : string;
  r_instance_url : string;
  r_id : string;
  r_token_type : string;
  r_issued_at : string;
  r_signature : string;
}.

Definition asTokenRefreshResponse (d : SalesforceAuthResponse)
  : SalesforceTokenRefreshResponse :=
  {| r_access_token := access_token d;
     r_instance_url := instance_url d;
     r_id := auth_id d;
     r_token_type := token_type d;
     r_issued_at := issued_at d;
     r_signature := signature d |}.

Record SalesforceQueryResult (T : Type) := {
  totalSize : Z;
  done : bool;
  records : list T;
  nextRecordsUrl : option string;
}.
Arguments totalSize {T} _.
Arguments done {T} _.
Arguments records {T} _.
Arguments nextRecordsUrl {T} _.

Record PicklistValue := {
  pl_label : string;
  pl_value : string;
  pl_active : bool;
  pl_defaultValue : bool;
}.

Record SalesforceField := {
  label : string;
  name : string;
  updateable : bool;
  type : string;
  field_length : Z;
  picklistValues : list PicklistValue;
}.

Record SalesforceObjectMetadata := {
  fields : list SalesforceField;
  o_label : string;
  o_name : string;
  queryable : bool;
  createable : bool;
  o_updateable : bool;
  deletable : bool;
}.

Record SalesforceError := {
  message : string;
  errorCode : string;
  e_fields : option (list string);
}.

(** ** config/config.ts *)

Module SALESFORCE_ENDPOINTS.
Definition LOGIN_URL := "https://login.salesforce.com".
Definition SANDBOX_URL := "https://test.salesforce.com".
Definition OAUTH_TOKEN_PATH := "/services/oauth2/token".
Definition API_VERSION := "v58.0".
End SALESFORCE_ENDPOINTS.

Definition getSalesforceBaseUrl (sandbox : bool) : string :=
  if sandbox then SALESFORCE_ENDPOINTS.SANDBOX_URL
  else SALESFORCE_ENDPOINTS.LOGIN_URL.

Definition getOAuthTokenUrl (sandbox : bool) : string :=
  getSalesforceBaseUrl sandbox +:+ SALESFORCE_ENDPOINTS.OAUTH_TOKEN_PATH.

Definition getApiUrl (instanceUrl path : string) : string :=
  let cleanInstanceUrl := stripTrailingSlash instanceUrl in
  let cleanPath := if startsWith "/" path then path else "/" +:+ path in
  cleanInstanceUrl +:+ "/services/data/" +:+ SALESFORCE_ENDPOINTS.API_VERSION
    +:+ cleanPath.

(** ** axios and the console *)

(** The body of an error response as [handleRequestError] looks at it:
    an object with a [message], a list whose first element has one, or
    anything else. *)
Inductive ErrorData :=
| ErrorObject (e : SalesforceError)
| ErrorList (es : list SalesforceError)
| ErrorOther (raw : string).

Record AxiosResponse (T : Type) := {
  status : Z;
  data : T;
}.
Arguments status {T} _.
Arguments data {T} _.

(** [AxiosError]: [response] is set when the server answered with a
    status outside 2xx, [request] when the request left but no answer
    came back. *)
Record AxiosError := {
  ae_message : string;
  response : option (AxiosResponse ErrorData);
  request : bool;
}.

(** Whatever a [catch] clause can receive. *)
Inductive Thrown :=
| JsAxiosError (e : AxiosError)
| JsError (msg : string)
| JsString (s : string)
| JsOther.

Definition isAxiosError (error : Thrown) : option AxiosError :=
  match error with
  | JsAxiosError e => Some e
  | _ => None
  end.

Inductive AxiosResult (T : Type) :=
| Resolved (r : AxiosResponse T)
| Rejected (error : Thrown).
Arguments Resolved {T} r.
Arguments Rejected {T} error.

Record Headers := {
  Authorization : option string;
  ContentType : string;
}.

Record AxiosRequestConfig := {
  method : HttpMethod;
  url : string;
  headers : Headers;
  params : option SalesforceRecordData;
  reqData : option SalesforceRecordData;
}.

(** [URLSearchParams] built from an object literal: the pairs in
    property order. *)
Definition URLSearchParams := list (string * string).

(** [params.get(key)] *)
Fixpoint searchParamsGet (key : string) (ps : URLSearchParams) : option string :=
  match ps with
  | [] => None
  | (k, v) :: rest => if String.eqb k key then Some v else searchParamsGet key rest
  end.

(** One call that left the process. *)
Inductive NetCall :=
| AxiosCall (config : AxiosRequestConfig)
| AxiosPost (url : string) (body : URLSearchParams) (headers : Headers).

(** One console call, as the sequence of its arguments and
    interpolated parts. *)
Inductive Piece :=
| Lit (s : string)
| Num (n : Z)
| JsonAuth (d : SalesforceAuthResponse)
| JsonError (d : ErrorData)
| Obj (e : Thrown).

Inductive ConsoleCall :=
| console_log (parts : list Piece)
| console_error (parts : list Piece).

(** What lies outside the objects of the program: the environment
    switch read by the logging helpers, the calls issued so far and
    the console output so far. *)
Record World := {
  debugEnabled : bool;
  calls : list NetCall;
  console : list ConsoleCall;
}.

Definition issue (c : NetCall) (w : World) : World :=
  {| debugEnabled := debugEnabled w;
     calls := calls w ++ [c];
     console := console w |}.

Definition print (c : ConsoleCall) (w : World) : World :=
  {| debugEnabled := debugEnabled w;
     calls := calls w;
     console := console w ++ [c] |}.

(** ** utils/debug-log.ts *)

Definition debugLog (message : string) (w : World) : World :=
  if debugEnabled w then print (console_log [Lit message]) w else w.

Definition errorLog (args : list Piece) (w : World) : World :=
  if debugEnabled w then print (console_error args) w else w.

(** ** config/config.ts, continued *)

Module ConfigManager.

Definition validateConfig (config : SalesforceConfig) : option Thrown :=
  if negb (nonempty (clientId config)) || negb (nonempty (clientSecret config))
  then Some (JsError "Client ID and Client Secret are required")
  else
    let hasDirectTokens :=
      truthy (accessToken config) && truthy (instanceUrl config) in
    let hasCredentials :=
      truthy (username config) && truthy (password config) in
    if negb hasDirectTokens && negb hasCredentials
    then Some (JsError
      "Either (SALESFORCE_ACCESS_TOKEN + SALESFORCE_INSTANCE_URL) or (SALESFORCE_USERNAME + SALESFORCE_PASSWORD) must be provided")
    else None.

(** [process.env.DEBUG === 'true' || process.env.NODE_ENV === 'development'] *)
Definition debugRequested (env : gmap string string) : bool :=
  bool_decide (env !! "DEBUG" = Some "true")
  || bool_decide (env !! "NODE_ENV" = Some "development").

(** [getSalesforceConfig] reads [process.env], here [env]; it throws
    ([inl]) or returns the configuration ([inr]). *)
Definition getSalesforceConfig (env : gmap string string)
  : Thrown + SalesforceConfig :=
  let clientId := nullish (env !! "SALESFORCE_CLIENT_ID") (env !! "SF_CONSUMER_KEY") in
  let clientSecret :=
    nullish (env !! "SALESFORCE_CLIENT_SECRET") (env !! "SF_CONSUMER_SECRET") in
  let username := nullish (env !! "SALESFORCE_USERNAME") (env !! "SF_USERNAME") in
  let password := nullish (env !! "SALESFORCE_PASSWORD") (env !! "SF_PASSWORD") in
  let securityToken :=
    nullish (env !! "SALESFORCE_SECURITY_TOKEN") (env !! "SF_SECURITY_TOKEN") in
  let sandbox :=
    String.eqb (toLowerCase (default "false" (env !! "SALESFORCE_SANDBOX"))) "true" in
  let accessToken := env !! "SALESFORCE_ACCESS_TOKEN" in
  let instanceUrl := env !! "SALESFORCE_INSTANCE_URL" in
  if negb (truthy clientId) || negb (truthy clientSecret) then
    inl (JsError
      "Missing required environment variables: SALESFORCE_CLIENT_ID and SALESFORCE_CLIENT_SECRET must be set")
  else
    inr {| clientId := default "" clientId;
           clientSecret := default "" clientSecret;
           username := username;
           password := password;
           securityToken := securityToken;
           sandbox := sandbox;
           accessToken := accessToken;
           instanceUrl := instanceUrl |}.

Definition getValidatedConfig (env : gmap string string)
  : Thrown + SalesforceConfig :=
  match getSalesforceConfig env with
  | inl error => inl error
  | inr config =>
      match validateConfig config with
      | Some error => inl error
      | None => inr config
      end
  end.

(** [`   Name: ${value ? '✅ Set' : '❌ Missing'}`] *)
Definition statusLine (name : string) (set : bool) : string :=
  "   " +:+ name +:+ ": " +:+ (if set then "✅ Set" else "❌ Missing").

Definition logConfigStatus (env : gmap string string) (w : World)
  : option Thrown * World :=
  if debugRequested env then
    match getSalesforceConfig env with
    | inl error => (Some error, w)
    | inr config =>
        let w := debugLog "🔧 Configuration Status:" w in
        let w := debugLog (statusLine "Client ID" (nonempty (clientId config))) w in
        let w := debugLog (statusLine "Client Secret" (nonempty (clientSecret config))) w in
        let w := debugLog (statusLine "Username" (truthy (username config))) w in
        let w := debugLog (statusLine "Password" (truthy (password config))) w in
        let w := debugLog (statusLine "Security Token" (truthy (securityToken config))) w in
        let w := debugLog (statusLine "Access Token" (truthy (accessToken config))) w in
        let w := debugLog (statusLine "Instance URL" (truthy (instanceUrl config))) w in
        let w := debugLog ("   Sandbox: " +:+
                           (if sandbox config then "✅ Enabled" else "❌ Disabled")) w in
        (None, w)
    end
  else (None, w).
End ConfigManager.

(** ** auth/password-auth.ts *)

Module SalesforcePasswordAuth.

Record t := {
  clientId : string;
  clientSecret : string;
  accessToken : option string;
  instanceUrl : option string;
  refreshToken : option string;
}.

(** [new SalesforcePasswordAuth(clientId, clientSecret)] *)
Definition new (clientId clientSecret : string) : t :=
  {| clientId := clientId;
     clientSecret := clientSecret;
     accessToken := None;
     instanceUrl := None;
     refreshToken := None |}.

Definition formHeaders : Headers :=
  {| Authorization := None;
     ContentType := "application/x-www-form-urlencoded" |}.

Definition getErrorMessage (error : Thrown) : string :=
  match error with
  | JsAxiosError e => ae_message e
  | JsError msg => msg
  | JsString s => s
  | JsOther => "Unknown error occurred"
  end.

Definition handleAuthError (error : Thrown) (w : World) : World :=
  let message := getErrorMessage error in
  let w := print (console_error [Lit "❌ Authentication error:"; Lit message]) w in
  match isAxiosError error with
  | Some axiosError =>
      match response axiosError with
      | Some r =>
          let w := print (console_error [Lit "   Status: "; Num (status r)]) w in
          let w := print (console_error [Lit "   Response: "; JsonError (data r)]) w in
          if (status r =? 400)%Z then
            let w := print (console_error [Lit "   💡 Common fixes:"]) w in
            let w := print (console_error
                       [Lit "      - Check username and password are correct"]) w in
            let w := print (console_error
                       [Lit "      - Verify security token if required"]) w in
            let w := print (console_error
                       [Lit "      - Ensure Connected App has correct OAuth scopes"]) w in
            print (console_error
                     [Lit "      - For sandbox, make sure sandbox=true"]) w
          else w
      | None =>
          if request axiosError then
            print (console_error
                     [Lit "   💡 Network error - check your internet connection"]) w
          else w
      end
  | None => w
  end.

Section Methods.

(** [axios.post(url, data, { headers })] against the service, given
    the calls issued before this one. *)
Variable axios_post :
  list NetCall -> string -> URLSearchParams -> Headers ->
  AxiosResult SalesforceAuthResponse.

Definition authenticate (this : t) (username password securityToken : string)
    (sandbox : bool) (w : World) : bool * t * World :=
  let tokenUrl := getOAuthTokenUrl sandbox in
  let combinedPassword :=
    if nonempty securityToken then password +:+ securityToken else password in
  let form : URLSearchParams :=
    [ ("grant_type", "password");
      ("client_id", clientId this);
      ("client_secret", clientSecret this);
      ("username", username);
      ("password", combinedPassword) ] in
  let w := debugLog "🔐 Authenticating with Salesforce using password flow..." w in
  let answer := axios_post (calls w) tokenUrl form formHeaders in
  let w := issue (AxiosPost tokenUrl form formHeaders) w in
  match answer with
  | Resolved response =>
      if (status response =? 200)%Z then
        let this' :=
          {| clientId := clientId this;
             clientSecret := clientSecret this;
             accessToken := Some (access_token (data response));
             instanceUrl := Some (instance_url (data response));
             refreshToken := refresh_token (data response) |} in
        let w := debugLog "✅ Authentication successful!" w in
        let w := debugLog ("   Instance URL: " +:+ template (instanceUrl this')) w in
        (true, this', w)
      else
        let w := print (console_error
                   [Lit "❌ Authentication failed: "; Num (status response)]) w in
        let w := print (console_error
                   [Lit "   Response: "; JsonAuth (data response)]) w in
        (false, this, w)
  | Rejected error => (false, this, handleAuthError error w)
  end.

Definition refreshAccessToken (this : t) (sandbox : bool) (w : World)
  : bool * t * World :=
  if negb (truthy (refreshToken this)) then
    (false, this, print (console_error [Lit "❌ No refresh token available"]) w)
  else
    let tokenUrl := getOAuthTokenUrl sandbox in
    let form : URLSearchParams :=
      [ ("grant_type", "refresh_token");
        ("client_id", clientId this);
        ("client_secret", clientSecret this);
        ("refresh_token", template (refreshToken this)) ] in
    let w := debugLog "🔄 Refreshing access token..." w in
    let answer := axios_post (calls w) tokenUrl form formHeaders in
    let w := issue (AxiosPost tokenUrl form formHeaders) w in
    match answer with
    | Resolved response =>
        let body := asTokenRefreshResponse (data response) in
        if (status response =? 200)%Z then
          let this' :=
            {| clientId := clientId this;
               clientSecret := clientSecret this;
               accessToken := Some (r_access_token body);
               instanceUrl := Some (r_instance_url body);
               refreshToken := refreshToken this |} in
          (true, this', debugLog "✅ Token refresh successful!" w)
        else
          let w := print (console_error
                     [Lit "❌ Token refresh failed: "; Num (status response)]) w in
          let w := print (console_error
                     [Lit "   Response: "; JsonAuth (data response)]) w in
          (false, this, w)
    | Rejected error =>
        (false, this,
         print (console_error
                  [Lit "❌ Token refresh error:"; Lit (getErrorMessage error)]) w)
    end.

End Methods.

Definition isAuthenticated (this : t) : bool :=
  truthy (accessToken this) && truthy (instanceUrl this).

Definition clearAuth (this : t) : t :=
  {| clientId := clientId this;
     clientSecret := clientSecret this;
     accessToken := None;
     instanceUrl := None;
     refreshToken := None |}.

End SalesforcePasswordAuth.

(** ** client/salesforce-client.ts *)

Module SalesforceClient.

Record t := {
  config : SalesforceConfig;
  authClient : option SalesforcePasswordAuth.t;
  sobjectsCache : gmap string (list SalesforceField);
}.

(** [new SalesforceClient(config)] *)
Definition new (config : SalesforceConfig) : t :=
  {| config := config; authClient := None; sobjectsCache := ∅ |}.

(** How an [async] method ends: it resolves with a value or rejects
    with what was thrown. *)
Inductive Completion (A : Type) :=
| Return (a : A)
| Throw (error : Thrown).
Arguments Return {A} a.
Arguments Throw {A} error.

(** A method of the client: it may update the object and the world. *)
Definition Async (A : Type) := t -> World -> Completion A * t * World.

(** [(await a) || (await b)] *)
Definition orElse (a b : Async bool) : Async bool := fun this w =>
  match a this w with
  | (Return true, this, w) => (Return true, this, w)
  | (Return false, this, w) => b this w
  | (Throw error, this, w) => (Throw error, this, w)
  end.

(** [this.config.accessToken = a; this.config.instanceUrl = i] *)
Definition setSession (a i : option string) (this : t) : t :=
  {| config :=
       {| clientId := clientId (config this);
          clientSecret := clientSecret (config this);
          username := username (config this);
          password := password (config this);
          securityToken := securityToken (config this);
          sandbox := sandbox (config this);
          accessToken := a;
          instanceUrl := i |};
     authClient := authClient this;
     sobjectsCache := sobjectsCache this |}.

(** [this.authClient = a] *)
Definition setAuthClient (a : SalesforcePasswordAuth.t) (this : t) : t :=
  {| config := config this;
     authClient := Some a;
     sobjectsCache := sobjectsCache this |}.

Definition getErrorMessage (error : Thrown) : string :=
  match error with
  | JsAxiosError e => ae_message e
  | JsError msg => msg
  | JsString s => s
  | JsOther => "Unknown error occurred"
  end.

(** [errorData?.message ?? errorData?.[0]?.message ?? `HTTP ${status}`] *)
Definition errorMessageOf (r : AxiosResponse ErrorData) : string :=
  match data r with
  | ErrorObject e => message e
  | ErrorList (e :: _) => message e
  | _ => "HTTP " +:+ pretty (status r)
  end.

Definition handleRequestError (error : Thrown) : Thrown :=
  match error with
  | JsAxiosError axiosError =>
      match response axiosError with
      | Some r => JsError ("Salesforce API Error: " +:+ errorMessageOf r)
      | None =>
          if request axiosError
          then JsError "Network error: Unable to reach Salesforce API"
          else error
      end
  | JsError _ => error
  | _ => JsError "Unknown error occurred"
  end.

Definition jsonHeaders (token : option string) : Headers :=
  {| Authorization := Some ("Bearer " +:+ template token);
     ContentType := "application/json" |}.

(** [config.headers.Authorization = v] *)
Definition setAuthorization (v : string) (c : AxiosRequestConfig)
  : AxiosRequestConfig :=
  {| method := method c;
     url := url c;
     headers := {| Authorization := Some v;
                   ContentType := ContentType (headers c) |};
     params := params c;
     reqData := reqData c |}.

(** [error.response?.status === 401] on an axios error *)
Definition isUnauthorized (error : Thrown) : bool :=
  match isAxiosError error with
  | Some e =>
      match response e with
      | Some r => (status r =? 401)%Z
      | None => false
      end
  | None => false
  end.

Definition notAuthenticated : Thrown :=
  JsError "Not authenticated. Call connect() first.".

Section Requests.

(** [T] is the type parameter of [makeRequest<T>]: the shape the
    caller asserts for the answer's body. *)
Context {T : Type}.

(** [axios(config)] against the service, given the calls issued
    before this one. *)
Variable axios : list NetCall -> AxiosRequestConfig -> AxiosResult T.

Variable axios_post :
  list NetCall -> string -> URLSearchParams -> Headers ->
  AxiosResult SalesforceAuthResponse.

(** [tryTokenRefresh] never throws: [refreshAccessToken] catches
    whatever its request throws. *)
Definition tryTokenRefresh (this : t) (w : World) : bool * t * World :=
  match authClient this with
  | Some a =>
      if truthy (SalesforcePasswordAuth.refreshToken a) then
        let w := debugLog "🔄 Attempting to refresh access token..." w in
        let '(ok, a, w) :=
          SalesforcePasswordAuth.refreshAccessToken axios_post a
            (sandbox (config this)) w in
        let this := setAuthClient a this in
        if ok then
          (true,
           setSession (SalesforcePasswordAuth.accessToken a)
                      (SalesforcePasswordAuth.instanceUrl a) this,
           w)
        else (false, this, errorLog [Lit "❌ Token refresh failed"] w)
      else (false, this, w)
  | None => (false, this, w)
  end.

Definition makeRequest (method : HttpMethod) (path : string)
    (body : option SalesforceRecordData)
    (params : option SalesforceRecordData) : Async T := fun this w =>
  if negb (truthy (accessToken (config this)))
     || negb (truthy (instanceUrl (config this)))
  then (Throw notAuthenticated, this, w)
  else
    let url := getApiUrl (template (instanceUrl (config this))) path in
    let axiosConfig :=
      {| method := method;
         url := url;
         headers := jsonHeaders (accessToken (config this));
         params := params;
         reqData := body |} in
    let answer := axios (calls w) axiosConfig in
    let w := issue (AxiosCall axiosConfig) w in
    match answer with
    | Resolved response => (Return (data response), this, w)
    | Rejected error =>
        if isUnauthorized error then
          let '(refreshed, this, w) := tryTokenRefresh this w in
          if refreshed then
            let axiosConfig :=
              setAuthorization
                ("Bearer " +:+ template (accessToken (config this)))
                axiosConfig in
            let answer := axios (calls w) axiosConfig in
            let w := issue (AxiosCall axiosConfig) w in
            match answer with
            | Resolved retryResponse =>
                (Return (data retryResponse), this, w)
            | Rejected retryError => (Throw retryError, this, w)
            end
          else (Throw (handleRequestError error), this, w)
        else (Throw (handleRequestError error), this, w)
    end.

Definition tryAccessTokenAuth : Async bool := fun this w =>
  if truthy (accessToken (config this)) && truthy (instanceUrl (config this))
  then
    let w := debugLog "🔑 Using access token from environment variables..." w in
    match makeRequest GET "/sobjects" None None this w with
    | (Return _, this, w) =>
        (Return true, this,
         debugLog "✅ Access token authentication successful!" w)
    | (Throw error, this, w) =>
        (Return false, this,
         errorLog [Lit "❌ Access token is invalid or expired"; Obj error] w)
    end
  else (Return false, this, w).

Definition tryUsernamePasswordAuth : Async bool := fun this w =>
  if truthy (username (config this)) && truthy (password (config this))
     && nonempty (clientId (config this))
     && nonempty (clientSecret (config this))
  then
    let w :=
      debugLog "🔐 Using username/password authentication with OAuth flow..." w in
    let a :=
      SalesforcePasswordAuth.new (clientId (config this))
                                 (clientSecret (config this)) in
    let '(success, a, w) :=
      SalesforcePasswordAuth.authenticate axios_post a
        (template (username (config this)))
        (template (password (config this)))
        (default "" (securityToken (config this)))
        (sandbox (config this)) w in
    let this := setAuthClient a this in
    if success then
      (Return true,
       setSession (SalesforcePasswordAuth.accessToken a)
                  (SalesforcePasswordAuth.instanceUrl a) this,
       w)
    else
      (Return false, this,
       errorLog [Lit "❌ Username/password authentication failed"] w)
  else (Return false, this, w).

Definition handleAuthFailure : Async bool := fun this w =>
  let w := errorLog
    [Lit "❌ No valid authentication method found. Please set one of:"] w in
  let w := errorLog
    [Lit "1. SALESFORCE_ACCESS_TOKEN + SALESFORCE_INSTANCE_URL"] w in
  let w := errorLog
    [Lit "2. SALESFORCE_USERNAME + SALESFORCE_PASSWORD + SALESFORCE_CLIENT_ID + SALESFORCE_CLIENT_SECRET"] w in
  (Return false, this, w).

Definition connect : Async bool := fun this w =>
  match orElse tryAccessTokenAuth
          (orElse tryUsernamePasswordAuth handleAuthFailure) this w with
  | (Return b, this, w) => (Return b, this, w)
  | (Throw error, this, w) =>
      let w := errorLog [Lit "Salesforce connection failed:";
                         Lit (getErrorMessage error)] w in
      let '(b, this, w) := tryTokenRefresh this w in
      (Return b, this, w)
  end.

(** [toolingExecute] and [apexExecute] call [axios] themselves: a
    rejection reaches the caller as it is. *)
Definition toolingExecute (action : string) (method : HttpMethod)
    (body : option SalesforceRecordData) : Async T := fun this w =>
  if negb (truthy (instanceUrl (config this)))
  then (Throw notAuthenticated, this, w)
  else
    let url := template (instanceUrl (config this))
               +:+ "/services/data/v58.0/tooling/" +:+ action in
    let axiosConfig :=
      {| method := method;
         url := url;
         headers := jsonHeaders (accessToken (config this));
         params := None;
         reqData := body |} in
    let answer := axios (calls w) axiosConfig in
    let w := issue (AxiosCall axiosConfig) w in
    match answer with
    | Resolved response => (Return (data response), this, w)
    | Rejected error => (Throw error, this, w)
    end.

Definition apexExecute (action : string) (method : HttpMethod)
    (body : option SalesforceRecordData) : Async T := fun this w =>
  if negb (truthy (instanceUrl (config this)))
  then (Throw notAuthenticated, this, w)
  else
    let cleanAction := if startsWith "/" action then action else "/" +:+ action in
    let url := template (instanceUrl (config this))
               +:+ "/services/apexrest" +:+ cleanAction in
    let axiosConfig :=
      {| method := method;
         url := url;
         headers := jsonHeaders (accessToken (config this));
         params := None;
         reqData := body |} in
    let answer := axios (calls w) axiosConfig in
    let w := issue (AxiosCall axiosConfig) w in
    match answer with
    | Resolved response => (Return (data response), this, w)
    | Rejected error => (Throw error, this, w)
    end.

Definition restful (path : string) (method : HttpMethod)
    (params body : option SalesforceRecordData) : Async T :=
  makeRequest method path body params.

End Requests.

Section Queries.

(** The record type of [query<T>] and [queryAll<T>]. *)
Context {R : Type}.

Variable axios :
  list NetCall -> AxiosRequestConfig -> AxiosResult (SalesforceQueryResult R).

Variable axios_post :
  list NetCall -> string -> URLSearchParams -> Headers ->
  AxiosResult SalesforceAuthResponse.

Definition query (q : string) : Async (SalesforceQueryResult R) :=
  makeRequest axios axios_post GET "/query" None (Some [("q", SString q)]).

(** The [while] loop of [queryAll]. The loop has no bound of its
    own; [fuel] bounds the number of iterations and [None] means
    the bound was reached with the condition still true. *)
Fixpoint queryAllLoop (fuel : nat) (result : SalesforceQueryResult R)
    (this : t) (w : World)
  : option (Completion (SalesforceQueryResult R) * t * World) :=
  if negb (done result) && truthy (nextRecordsUrl result) then
    match fuel with
    | O => None
    | S fuel =>
        match makeRequest axios axios_post GET
                (replace "/services/data/v58.0" ""
                   (template (nextRecordsUrl result)))
                None None this w with
        | (Return nextResult, this, w) =>
            queryAllLoop fuel
              {| records := records result ++ records nextResult;
                 done := done nextResult;
                 nextRecordsUrl := nextRecordsUrl nextResult;
                 totalSize := totalSize nextResult |}
              this w
        | (Throw error, this, w) => Some (Throw error, this, w)
        end
    end
  else Some (Return result, this, w).

Definition queryAll (fuel : nat) (q : string) (this : t) (w : World)
  : option (Completion (SalesforceQueryResult R) * t * World) :=
  match query q this w with
  | (Return result, this, w) => queryAllLoop fuel result this w
  | (Throw error, this, w) => Some (Throw error, this, w)
  end.

End Queries.

Section Search.

Context {R : Type}.

(** [{ searchRecords?: T[] }] *)
Variable axios :
  list NetCall -> AxiosRequestConfig -> AxiosResult (option (list R)).

Variable axios_post :
  list NetCall -> string -> URLSearchParams -> Headers ->
  AxiosResult SalesforceAuthResponse.

Definition search (searchQuery : string) : Async (list R) := fun this w =>
  match makeRequest axios axios_post GET "/search" None
          (Some [("q", SString searchQuery)]) this w with
  | (Return searchRecords, this, w) =>
      (Return (default [] searchRecords), this, w)
  | (Throw error, this, w) => (Throw error, this, w)
  end.

End Search.

Section Metadata.

Variable axios :
  list NetCall -> AxiosRequestConfig -> AxiosResult SalesforceObjectMetadata.

Variable axios_post :
  list NetCall -> string -> URLSearchParams -> Headers ->
  AxiosResult SalesforceAuthResponse.

Definition getObjectFields (objectName : string)
  : Async (list SalesforceField) := fun this w =>
  match sobjectsCache this !! objectName with
  | Some cached => (Return cached, this, w)
  | None =>
      match makeRequest axios axios_post GET
              ("/sobjects/" +:+ objectName +:+ "/describe")
              None None this w with
      | (Return metadata, this, w) =>
          let filteredFields :=
            map (fun field =>
                   {| label := label field;
                      name := name field;
                      updateable := updateable field;
                      type := type field;
                      field_length := field_length field;
                      picklistValues := picklistValues field |})
                (fields metadata) in
          (Return filteredFields,
           {| config := config this;
              authClient := authClient this;
              sobjectsCache := <[objectName := filteredFields]> (sobjectsCache this) |},
           w)
      | (Throw error, this, w) => (Throw error, this, w)
      end
  end.

End Metadata.

Section Records.

Context {T : Type}.

Variable axios : list NetCall -> AxiosRequestConfig -> AxiosResult T.

Variable axios_post :
  list NetCall -> string -> URLSearchParams -> Headers ->
  AxiosResult SalesforceAuthResponse.

Definition getRecord (objectName recordId : string)
    (fields : option (list string)) : Async T :=
  let path := "/sobjects/" +:+ objectName +:+ "/" +:+ recordId in
  let path :=
    match fields with
    | Some (f :: fs) => path +:+ "?fields=" +:+ String.concat "," (f :: fs)
    | _ => path
    end in
  makeRequest axios axios_post GET path None None.

Definition createRecord (objectName : string) (body : SalesforceRecordData)
  : Async T :=
  makeRequest axios axios_post POST ("/sobjects/" +:+ objectName) (Some body) None.

Definition updateRecord (objectName recordId : string)
    (body : SalesforceRecordData) : Async bool := fun this w =>
  match makeRequest axios axios_post PATCH
          ("/sobjects/" +:+ objectName +:+ "/" +:+ recordId)
          (Some body) None this w with
  | (Return _, this, w) => (Return true, this, w)
  | (Throw error, this, w) => (Throw error, this, w)
  end.

Definition deleteRecord (objectName recordId : string) : Async bool :=
  fun this w =>
  match makeRequest axios axios_post DELETE
          ("/sobjects/" +:+ objectName +:+ "/" +:+ recordId)
          None None this w with
  | (Return _, this, w) => (Return true, this, w)
  | (Throw error, this, w) => (Throw error, this, w)
  end.

End Records.

Definition isAuthenticated (this : t) : bool :=
  truthy (accessToken (config this)) && truthy (instanceUrl (config this)).

Definition getInstanceUrl (this : t) : option string :=
  instanceUrl (config this).

End SalesforceClient.

(** ** server/mcp-server.ts

    The handlers of the tool calls that need no serializer of their
    own or a single one: authentication, object fields, update and
    delete, and the two pass-through calls. [JSON.stringify] is a
    parameter. *)

Module SalesforceMCPServer.

Import SalesforceClient.

Record TextContent := {
  tc_type : string;
  text : string;
}.

Record CallToolResult := {
  content : list TextContent;
}.

Definition textResult (s : string) : CallToolResult :=
  {| content := [ {| tc_type := "text"; text := s |} ] |}.

Record ToolAuthenticatePasswordArgs := {
  a_username : option string;
  a_password : option string;
  a_security_token : option string;
  a_sandbox : option bool;
}.

Record ToolGetObjectFieldsArgs := {
  g_object_name : string;
}.

Record ToolUpdateRecordArgs := {
  u_object_name : string;
  u_record_id : string;
  u_data : SalesforceRecordData;
}.

Record ToolDeleteRecordArgs := {
  d_object_name : string;
  d_record_id : string;
}.

(** [ToolToolingExecuteArgs] and [ToolApexExecuteArgs] *)
Record ToolExecuteArgs := {
  x_action : string;
  x_method : option HttpMethod;
  x_data : option SalesforceRecordData;
}.

Record t := {
  salesforceClient : SalesforceClient.t;
}.

(** A handler: it may replace the client of the server and change
    the world. *)
Definition Handler (A : Type) := t -> World -> Completion A * t * World.

Definition authenticateFirst : Thrown :=
  JsError
    "Not authenticated. Please authenticate first using the authenticate_password tool.".

Definition ensureAuthenticated (this : t) : option Thrown :=
  if negb (isAuthenticated (salesforceClient this))
  then Some authenticateFirst
  else None.

Section Handlers.

(** [process.env] *)
Variable env : gmap string string.

Context {T : Type}.

Variable axios : list NetCall -> AxiosRequestConfig -> AxiosResult T.

Variable axiosDescribe :
  list NetCall -> AxiosRequestConfig -> AxiosResult SalesforceObjectMetadata.

Variable axios_post :
  list NetCall -> string -> URLSearchParams -> Headers ->
  AxiosResult SalesforceAuthResponse.

(** [JSON.stringify(value, null, 2)] inside a template literal *)
Variable stringify : T -> string.

Variable stringifyFields : list SalesforceField -> string.

Definition handleAuthenticatePassword (args : ToolAuthenticatePasswordArgs)
  : Handler CallToolResult := fun this w =>
  let security_token := default "" (a_security_token args) in
  let sandbox := default false (a_sandbox args) in
  if negb (truthy (a_username args)) || negb (truthy (a_password args)) then
    (Throw (JsError
       "Password authentication requires username and password parameters."),
     this, w)
  else
    match ConfigManager.getSalesforceConfig env with
    | inl error => (Throw error, this, w)
    | inr config =>
        if negb (nonempty (clientId config)) || negb (nonempty (clientSecret config))
        then
          (Throw (JsError
             "Password authentication requires SALESFORCE_CLIENT_ID and SALESFORCE_CLIENT_SECRET environment variables to be set."),
           this, w)
        else
          let client :=
            SalesforceClient.new
              {| clientId := clientId config;
                 clientSecret := clientSecret config;
                 username := a_username args;
                 password := a_password args;
                 securityToken := Some security_token;
                 sandbox := sandbox;
                 accessToken := accessToken config;
                 instanceUrl := instanceUrl config |} in
          match connect axios axios_post client w with
          | (Return success, client, w) =>
              let this := {| salesforceClient := client |} in
              if success then
                (Return (textResult
                   ("✅ Password authentication successful!" +:+ newline
                    +:+ "Connected to: "
                    +:+ templateNull (getInstanceUrl client) +:+ newline
                    +:+ "You can now use other Salesforce tools.")),
                 this, w)
              else
                (Throw (JsError
                   "Password authentication failed. Please check your credentials and try again."),
                 this, w)
          | (Throw error, client, w) =>
              (Throw error, {| salesforceClient := client |}, w)
          end
    end.

Definition handleGetObjectFields (args : ToolGetObjectFieldsArgs)
  : Handler CallToolResult := fun this w =>
  let object_name := g_object_name args in
  match ensureAuthenticated this with
  | Some error => (Throw error, this, w)
  | None =>
      match getObjectFields axiosDescribe axios_post object_name
              (salesforceClient this) w with
      | (Return fields, client, w) =>
          (Return (textResult
             (object_name +:+ " Metadata (JSON):" +:+ newline
              +:+ stringifyFields fields)),
           {| salesforceClient := client |}, w)
      | (Throw error, client, w) =>
          (Throw error, {| salesforceClient := client |}, w)
      end
  end.

Definition handleUpdateRecord (args : ToolUpdateRecordArgs)
  : Handler CallToolResult := fun this w =>
  match ensureAuthenticated this with
  | Some error => (Throw error, this, w)
  | None =>
      match updateRecord axios axios_post (u_object_name args) (u_record_id args)
              (u_data args) (salesforceClient this) w with
      | (Return success, client, w) =>
          (Return (textResult
             ("Update " +:+ u_object_name args +:+ " Record Result: "
              +:+ (if success then "Success" else "Failed"))),
           {| salesforceClient := client |}, w)
      | (Throw error, client, w) =>
          (Throw error, {| salesforceClient := client |}, w)
      end
  end.

Definition handleDeleteRecord (args : ToolDeleteRecordArgs)
  : Handler CallToolResult := fun this w =>
  match ensureAuthenticated this with
  | Some error => (Throw error, this, w)
  | None =>
      match deleteRecord axios axios_post (d_object_name args) (d_record_id args)
              (salesforceClient this) w with
      | (Return success, client, w) =>
          (Return (textResult
             ("Delete " +:+ d_object_name args +:+ " Record Result: "
              +:+ (if success then "Success" else "Failed"))),
           {| salesforceClient := client |}, w)
      | (Throw error, client, w) =>
          (Throw error, {| salesforceClient := client |}, w)
      end
  end.

Definition handleToolingExecute (args : ToolExecuteArgs)
  : Handler CallToolResult := fun this w =>
  let method := default GET (x_method args) in
  match ensureAuthenticated this with
  | Some error => (Throw error, this, w)
  | None =>
      match toolingExecute axios (x_action args) method (x_data args)
              (salesforceClient this) w with
      | (Return result, client, w) =>
          (Return (textResult
             ("Tooling Execute Result (JSON):" +:+ newline +:+ stringify result)),
           {| salesforceClient := client |}, w)
      | (Throw error, client, w) =>
          (Throw error, {| salesforceClient := client |}, w)
      end
  end.

Definition handleApexExecute (args : ToolExecuteArgs)
  : Handler CallToolResult := fun this w =>
  let method := default GET (x_method args) in
  match ensureAuthenticated this with
  | Some error => (Throw error, this, w)
  | None =>
      match apexExecute axios (x_action args) method (x_data args)
              (salesforceClient this) w with
      | (Return result, client, w) =>
          (Return (textResult
             ("Apex Execute Result (JSON):" +:+ newline +:+ stringify result)),
           {| salesforceClient := client |}, w)
      | (Throw error, client, w) =>
          (Throw error, {| salesforceClient := client |}, w)
      end
  end.

End Handlers.

End SalesforceMCPServer.


(** ** Vocabulary of the properties *)

Import SalesforceClient.

(** The requests to the data endpoints among a list of calls. *)
Definition dataCalls (l : list NetCall) : list AxiosRequestConfig :=
  omap (fun c => match c with AxiosCall r => Some r | AxiosPost _ _ _ => None end) l.

(** The posts to the token endpoint among a list of calls. *)
Definition tokenPosts (l : list NetCall) : list URLSearchParams :=
  omap (fun c => match c with AxiosPost _ f _ => Some f | AxiosCall _ => None end) l.

(** A credential exchange: a post of the password grant. *)
Definition isExchange (c : NetCall) : bool :=
  match c with
  | AxiosPost _ form _ =>
      bool_decide (searchParamsGet "grant_type" form = Some "password")
  | AxiosCall _ => false
  end.

(** The request [makeRequest] sends first. *)
Definition requestConfig (this : t) (method : HttpMethod) (path : string)
    (body params : option SalesforceRecordData) : AxiosRequestConfig :=
  {| method := method;
     url := getApiUrl (template (instanceUrl (config this))) path;
     headers := jsonHeaders (accessToken (config this));
     params := params;
     reqData := body |}.

(** The form [authenticate] posts. *)
Definition exchangeForm (a : SalesforcePasswordAuth.t)
    (username password securityToken : string) : URLSearchParams :=
  [ ("grant_type", "password");
    ("client_id", SalesforcePasswordAuth.clientId a);
    ("client_secret", SalesforcePasswordAuth.clientSecret a);
    ("username", username);
    ("password",
     if nonempty securityToken then password +:+ securityToken else password) ].

(** The form [refreshAccessToken] posts. *)
Definition refreshForm (a : SalesforcePasswordAuth.t) : URLSearchParams :=
  [ ("grant_type", "refresh_token");
    ("client_id", SalesforcePasswordAuth.clientId a);
    ("client_secret", SalesforcePasswordAuth.clientSecret a);
    ("refresh_token", template (SalesforcePasswordAuth.refreshToken a)) ].

(** The part of the configuration that no method of the client
    assigns. *)
Definition credentials (c : SalesforceConfig) :=
  (clientId c, clientSecret c, username c, password c, securityToken c, sandbox c).

(** The attributes [getObjectFields] keeps of each field. *)
Definition extractFields (metadata : SalesforceObjectMetadata)
  : list SalesforceField :=
  map (fun field =>
         {| label := label field;
            name := name field;
            updateable := updateable field;
            type := type field;
            field_length := field_length field;
            picklistValues := picklistValues field |})
      (fields metadata).

(** How an answer of [axios] ends the method that awaits it outside a
    [try]. *)
Definition await {T : Type} (answer : AxiosResult T) : Completion T :=
  match answer with
  | Resolved r => Return (data r)
  | Rejected error => Throw error
  end.

(** A page after which [queryAll] asks for another one. *)
Definition hasMore {R : Type} (p : SalesforceQueryResult R) : bool :=
  negb (done p) && truthy (nextRecordsUrl p).

(** The request [queryAll] sends for the page after [p]. *)
Definition locatorRequest {R : Type} (this : t) (p : SalesforceQueryResult R)
  : AxiosRequestConfig :=
  requestConfig this GET
    (replace "/services/data/v58.0" "" (template (nextRecordsUrl p))) None None.

(** The service answers the requests [reqs], issued one after the other
    from the history [hist], with the pages [pages]. *)
Fixpoint serves {R : Type}
    (axios : list NetCall -> AxiosRequestConfig -> AxiosResult (SalesforceQueryResult R))
    (hist : list NetCall) (reqs : list AxiosRequestConfig)
    (pages : list (SalesforceQueryResult R)) : Prop :=
  match reqs, pages with
  | [], [] => True
  | r :: reqs, p :: pages =>
      (exists st, axios hist r = Resolved {| status := st; data := p |})
      /\ serves axios (hist ++ [AxiosCall r]) reqs pages
  | _, _ => False
  end.

Definition issueAll (reqs : list AxiosRequestConfig) (w : World) : World :=
  foldl (fun w r => issue (AxiosCall r) w) w reqs.

(** One public operation of a client, run to completion, whatever the
    service answers. *)
Inductive step : t * World -> t * World -> Prop :=
| step_connect {T} (axios : _ -> _ -> AxiosResult T) axios_post this w r this' w' :
    connect axios axios_post this w = (r, this', w') ->
    step (this, w) (this', w')
| step_makeRequest {T} (axios : _ -> _ -> AxiosResult T) axios_post
    m path body params this w r this' w' :
    makeRequest axios axios_post m path body params this w = (r, this', w') ->
    step (this, w) (this', w')
| step_query {R} (axios : _ -> _ -> AxiosResult (SalesforceQueryResult R))
    axios_post q this w r this' w' :
    query axios axios_post q this w = (r, this', w') ->
    step (this, w) (this', w')
| step_queryAll {R} (axios : _ -> _ -> AxiosResult (SalesforceQueryResult R))
    axios_post fuel q this w r this' w' :
    queryAll axios axios_post fuel q this w = Some (r, this', w') ->
    step (this, w) (this', w')
| step_search {R} (axios : _ -> _ -> AxiosResult (option (list R)))
    axios_post q this w r this' w' :
    search axios axios_post q this w = (r, this', w') ->
    step (this, w) (this', w')
| step_getObjectFields axios axios_post objectName this w r this' w' :
    getObjectFields axios axios_post objectName this w = (r, this', w') ->
    step (this, w) (this', w')
| step_getRecord {T} (axios : _ -> _ -> AxiosResult T) axios_post
    objectName recordId fs this w r this' w' :
    getRecord axios axios_post objectName recordId fs this w = (r, this', w') ->
    step (this, w) (this', w')
| step_createRecord {T} (axios : _ -> _ -> AxiosResult T) axios_post
    objectName body this w r this' w' :
    createRecord axios axios_post objectName body this w = (r, this', w') ->
    step (this, w) (this', w')
| step_updateRecord {T} (axios : _ -> _ -> AxiosResult T) axios_post
    objectName recordId body this w r this' w' :
    updateRecord axios axios_post objectName recordId body this w = (r, this', w') ->
    step (this, w) (this', w')
| step_deleteRecord {T} (axios : _ -> _ -> AxiosResult T) axios_post
    objectName recordId this w r this' w' :
    deleteRecord axios axios_post objectName recordId this w = (r, this', w') ->
    step (this, w) (this', w')
| step_toolingExecute {T} (axios : _ -> _ -> AxiosResult T)
    action m body this w r this' w' :
    toolingExecute axios action m body this w = (r, this', w') ->
    step (this, w) (this', w')
| step_apexExecute {T} (axios : _ -> _ -> AxiosResult T)
    action m body this w r this' w' :
    apexExecute axios action m body this w = (r, this', w') ->
    step (this, w) (this', w')
| step_restful {T} (axios : _ -> _ -> AxiosResult T) axios_post
    path m params body this w r this' w' :
    restful axios axios_post path m params body this w = (r, this', w') ->
    step (this, w) (this', w').

(** ** Scenarios

    Concrete services, clients and worlds on which the properties are
    exercised. A scripted service answers its n-th request with the
    n-th entry of the script, like a chain of [mockResolvedValueOnce];
    past the end of the script the service cannot be reached. *)

Module Scenario.

Definition unreachable {T : Type} : AxiosResult T :=
  Rejected (JsAxiosError {| ae_message := "Network Error";
                            response := None;
                            request := true |}).

Definition scripted {T : Type} (script : list (AxiosResult T))
  : list NetCall -> AxiosRequestConfig -> AxiosResult T :=
  fun hist _ => default unreachable (script !! List.length (dataCalls hist)).

Definition scriptedPost (script : list (AxiosResult SalesforceAuthResponse))
  : list NetCall -> string -> URLSearchParams -> Headers ->
    AxiosResult SalesforceAuthResponse :=
  fun hist _ _ _ => default unreachable (script !! List.length (tokenPosts hist)).

Definition ok {T : Type} (d : T) : AxiosResult T :=
  Resolved {| status := 200; data := d |}.

Definition unauthorized {T : Type} : AxiosResult T :=
  Rejected (JsAxiosError
    {| ae_message := "Request failed with status code 401";
       response := Some {| status := 401;
                           data := ErrorList
                             [{| message := "Session expired or invalid";
                                 errorCode := "INVALID_SESSION_ID";
                                 e_fields := None |}] |};
       request := true |}).

Definition quiet : World :=
  {| debugEnabled := false; calls := []; console := [] |}.

Definition verbose : World :=
  {| debugEnabled := true; calls := []; console := [] |}.

(** A configuration with the application identity only. *)
Definition bareConfig : SalesforceConfig :=
  {| clientId := "id1";
     clientSecret := "sec1";
     username := None;
     password := None;
     securityToken := None;
     sandbox := false;
     accessToken := None;
     instanceUrl := None |}.

(** The configuration of the documented exchange scenario. *)
Definition sandboxConfig : SalesforceConfig :=
  {| clientId := "id1";
     clientSecret := "sec1";
     username := Some "u@x.com";
     password := Some "p";
     securityToken := Some "tok";
     sandbox := true;
     accessToken := None;
     instanceUrl := None |}.

(** A configuration with a token supplied in advance. *)
Definition tokenConfig : SalesforceConfig :=
  {| clientId := "id1";
     clientSecret := "sec1";
     username := None;
     password := None;
     securityToken := None;
     sandbox := false;
     accessToken := Some "valid-token";
     instanceUrl := Some "https://test.salesforce.com" |}.

(** A stale token next to a full set of credentials. *)
Definition fullConfig : SalesforceConfig :=
  {| clientId := "id1";
     clientSecret := "sec1";
     username := Some "u@x.com";
     password := Some "p";
     securityToken := Some "tok";
     sandbox := true;
     accessToken := Some "stale-token";
     instanceUrl := Some "https://test.salesforce.com" |}.

(** An instance URL without an access token. *)
Definition urlOnlyConfig : SalesforceConfig :=
  {| clientId := "id1";
     clientSecret := "sec1";
     username := None;
     password := None;
     securityToken := None;
     sandbox := false;
     accessToken := None;
     instanceUrl := Some "https://test.salesforce.com" |}.

Definition grant (token : string) (refresh : option string)
  : SalesforceAuthResponse :=
  {| access_token := token;
     instance_url := "https://na1.salesforce.com";
     auth_id := "https://login.salesforce.com/id/00D/005";
     token_type := "Bearer";
     issued_at := "1234567890";
     signature := "sig";
     refresh_token := refresh |}.

(** An exchanger that holds a session and a refresh token. *)
Definition renewable : SalesforcePasswordAuth.t :=
  {| SalesforcePasswordAuth.clientId := "id1";
     SalesforcePasswordAuth.clientSecret := "sec1";
     SalesforcePasswordAuth.accessToken := Some "expired-token";
     SalesforcePasswordAuth.instanceUrl := Some "https://test.salesforce.com";
     SalesforcePasswordAuth.refreshToken := Some "old" |}.

(** An exchanger whose exchange answer carried no refresh token. *)
Definition notRenewable : SalesforcePasswordAuth.t :=
  {| SalesforcePasswordAuth.clientId := "id1";
     SalesforcePasswordAuth.clientSecret := "sec1";
     SalesforcePasswordAuth.accessToken := Some "expired-token";
     SalesforcePasswordAuth.instanceUrl := Some "https://test.salesforce.com";
     SalesforcePasswordAuth.refreshToken := None |}.

(** A connected client whose token has expired. *)
Definition expiredClient : t :=
  {| config :=
       {| clientId := "id1";
          clientSecret := "sec1";
          username := Some "u@x.com";
          password := Some "p";
          securityToken := Some "tok";
          sandbox := false;
          accessToken := Some "expired-token";
          instanceUrl := Some "https://test.salesforce.com" |};
     authClient := Some renewable;
     sobjectsCache := ∅ |}.

(** A result set that arrives in three pages of one record each. *)
Definition page1 : SalesforceQueryResult string :=
  {| totalSize := 3;
     done := false;
     records := ["record 1"];
     nextRecordsUrl := Some "/services/data/v58.0/query/01g-2000" |}.

Definition page2 : SalesforceQueryResult string :=
  {| totalSize := 3;
     done := false;
     records := ["record 2"];
     nextRecordsUrl := Some "/services/data/v58.0/query/01g-4000" |}.

Definition page3 : SalesforceQueryResult string :=
  {| totalSize := 3;
     done := true;
     records := ["record 3"];
     nextRecordsUrl := None |}.

(** A page that is not the last one and names no successor. *)
Definition danglingPage : SalesforceQueryResult string :=
  {| totalSize := 3;
     done := false;
     records := ["record 1"];
     nextRecordsUrl := None |}.

(** The description of an object type with two fields. *)
Definition accountMetadata : SalesforceObjectMetadata :=
  {| fields :=
       [ {| label := "Account ID"; name := "Id"; updateable := false;
            type := "id"; field_length := 18; picklistValues := [] |};
         {| label := "Account Name"; name := "Name"; updateable := true;
            type := "string"; field_length := 255; picklistValues := [] |} ];
     o_label := "Account";
     o_name := "Account";
     queryable := true;
     createable := true;
     o_updateable := true;
     deletable := true |}.

End Scenario.

(** Environments and servers on which the properties of the
    configuration loader and of the tool handlers are exercised. *)

Module ServerScenario.

(** The application identity and nothing else. *)
Definition bareEnv : gmap string string :=
  list_to_map [("SALESFORCE_CLIENT_ID", "id1");
               ("SALESFORCE_CLIENT_SECRET", "sec1")].

(** The primary client id is set to the empty string next to a usable
    fallback. *)
Definition maskedEnv : gmap string string :=
  list_to_map [("SALESFORCE_CLIENT_ID", "");
               ("SF_CONSUMER_KEY", "key1");
               ("SALESFORCE_CLIENT_SECRET", "sec1")].

(** The identity with credentials for the sandbox. *)
Definition sandboxEnv : gmap string string :=
  list_to_map [("SALESFORCE_CLIENT_ID", "id1");
               ("SALESFORCE_CLIENT_SECRET", "sec1");
               ("SALESFORCE_USERNAME", "u@x.com");
               ("SALESFORCE_PASSWORD", "p");
               ("SALESFORCE_SANDBOX", "TRUE")].

(** The identity with a token pair supplied in advance. *)
Definition tokenEnv : gmap string string :=
  list_to_map [("SALESFORCE_CLIENT_ID", "id1");
               ("SALESFORCE_CLIENT_SECRET", "sec1");
               ("SALESFORCE_ACCESS_TOKEN", "valid-token");
               ("SALESFORCE_INSTANCE_URL", "https://test.salesforce.com")].

(** Debug output requested, identity missing. *)
Definition debugEnv : gmap string string :=
  list_to_map [("DEBUG", "true")].

(** A connected client that has cached the fields of [Account]. *)
Definition warmClient : SalesforceClient.t :=
  {| config := Scenario.tokenConfig;
     authClient := None;
     sobjectsCache := {[ "Account" := fields Scenario.accountMetadata ]} |}.

Definition warmServer : SalesforceMCPServer.t :=
  {| SalesforceMCPServer.salesforceClient := warmClient |}.

Definition coldServer : SalesforceMCPServer.t :=
  {| SalesforceMCPServer.salesforceClient := new Scenario.bareConfig |}.

Definition passwordArgs : SalesforceMCPServer.ToolAuthenticatePasswordArgs :=
  {| SalesforceMCPServer.a_username := Some "u@x.com";
     SalesforceMCPServer.a_password := Some "p";
     SalesforceMCPServer.a_security_token := None;
     SalesforceMCPServer.a_sandbox := None |}.

(** [JSON.stringify] of a string, for the strings used here. *)
Definition quote (s : string) : string := "'" +:+ s +:+ "'".

Definition noFields (fs : list SalesforceField) : string := "[...]".

End ServerScenario.

(** The client [handleAuthenticatePassword] builds from the
    configuration of the environment and its arguments. *)
Definition passwordClient (c : SalesforceConfig)
    (args : SalesforceMCPServer.ToolAuthenticatePasswordArgs) : t :=
  new {| clientId := clientId c;
         clientSecret := clientSecret c;
         username := SalesforceMCPServer.a_username args;
         password := SalesforceMCPServer.a_password args;
         securityToken := Some (default "" (SalesforceMCPServer.a_security_token args));
         sandbox := default false (SalesforceMCPServer.a_sandbox args);
         accessToken := accessToken c;
         instanceUrl := instanceUrl c |}.

(** The request [toolingExecute] sends. *)
Definition toolingRequest (this : t) (action : string) (method : HttpMethod)
    (body : option SalesforceRecordData) : AxiosRequestConfig :=
  {| method := method;
     url := template (instanceUrl (config this))
            +:+ "/services/data/v58.0/tooling/" +:+ action;
     headers := jsonHeaders (accessToken (config this));
     params := None;
     reqData := body |}.

(** The request [apexExecute] sends. *)
Definition apexRequest (this : t) (action : string) (method : HttpMethod)
    (body : option SalesforceRecordData) : AxiosRequestConfig :=
  {| method := method;
     url := template (instanceUrl (config this))
            +:+ "/services/apexrest"
            +:+ (if startsWith "/" action then action else "/" +:+ action);
     headers := jsonHeaders (accessToken (config this));
     params := None;
     reqData := body |}.

(** The exchange request of the password strategy of [connect]. *)
Definition exchangePost (c : SalesforceConfig) : NetCall :=
  AxiosPost (getOAuthTokenUrl (sandbox c))
    (exchangeForm (SalesforcePasswordAuth.new (clientId c) (clientSecret c))
       (template (username c)) (template (password c))
       (default "" (securityToken c)))
    SalesforcePasswordAuth.formHeaders.

(** The password strategy applies: the four credentials are there. *)
Definition hasCredentials (c : SalesforceConfig) : bool :=
  truthy (username c) && truthy (password c)
  && nonempty (clientId c) && nonempty (clientSecret c).

(** The token endpoint answered 200. *)
Definition granted (answer : AxiosResult SalesforceAuthResponse) : bool :=
  match answer with
  | Resolved r => (status r =? 200)%Z
  | Rejected _ => false
  end.

(** ** Properties *)

(** *** Endpoints *)

Example getOAuthTokenUrl_sandbox :
  getOAuthTokenUrl true = "https://test.salesforce.com/services/oauth2/token".
Proof. reflexivity. Qed.

Example getOAuthTokenUrl_production :
  getOAuthTokenUrl false = "https://login.salesforce.com/services/oauth2/token".
Proof. reflexivity. Qed.

Example getApiUrl_joins_without_slashes :
  getApiUrl "https://x.my.salesforce.com" "sobjects"
  = "https://x.my.salesforce.com/services/data/v58.0/sobjects".
Proof. reflexivity. Qed.

Example getApiUrl_joins_with_slashes :
  getApiUrl "https://x.my.salesforce.com/" "/sobjects"
  = "https://x.my.salesforce.com/services/data/v58.0/sobjects".
Proof. reflexivity. Qed.

Example replace_strips_the_version_prefix :
  replace "/services/data/v58.0" "" "/services/data/v58.0/query/01g-2000"
  = "/query/01g-2000".
Proof. reflexivity. Qed.

(** *** The world *)

Lemma calls_print c w : calls (print c w) = calls w.
Proof. reflexivity. Qed.

Lemma calls_issue c w : calls (issue c w) = calls w ++ [c].
Proof. reflexivity. Qed.

Lemma calls_debugLog m w : calls (debugLog m w) = calls w.
Proof. unfold debugLog. by destruct (debugEnabled w). Qed.

Lemma calls_errorLog args w : calls (errorLog args w) = calls w.
Proof. unfold errorLog. by destruct (debugEnabled w). Qed.

Lemma calls_handleAuthError e w :
  calls (SalesforcePasswordAuth.handleAuthError e w) = calls w.
Proof.
  unfold SalesforcePasswordAuth.handleAuthError.
  destruct (isAxiosError e) as [a|]; [|done].
  destruct (response a) as [r|]; [destruct (status r =? 400)%Z; done|].
  by destruct (request a).
Qed.

(** Logging leaves the history of calls alone. *)
Ltac log_calls :=
  repeat (rewrite calls_errorLog || rewrite calls_debugLog
          || rewrite calls_print || rewrite calls_handleAuthError
          || rewrite calls_issue).

Lemma console_errorLog args w :
  console (errorLog args w)
  = console w ++ (if debugEnabled w then [console_error args] else []).
Proof.
  unfold errorLog. destruct (debugEnabled w); [reflexivity|].
  symmetry. apply app_nil_r.
Qed.

Lemma debugEnabled_errorLog args w :
  debugEnabled (errorLog args w) = debugEnabled w.
Proof. unfold errorLog. by destruct (debugEnabled w) eqn:E. Qed.

Lemma issue_neq c w : issue c w <> w.
Proof.
  intros H. apply (f_equal calls) in H. rewrite calls_issue in H.
  apply (f_equal List.length) in H. rewrite length_app in H. simpl in H. lia.
Qed.

Lemma truthy_Some o : truthy o = true -> exists s, o = Some s /\ s <> "".
Proof.
  destruct o as [s|]; [|discriminate]. simpl. intros H. exists s. split; [done|].
  intros ->. discriminate.
Qed.

(** *** The executor *)

Lemma makeRequest_requires_session_aux {T : Type}
    (axios : list NetCall -> AxiosRequestConfig -> AxiosResult T)
    axios_post method path body params this w :
  truthy (accessToken (config this)) = false
  \/ truthy (instanceUrl (config this)) = false ->
  makeRequest axios axios_post method path body params this w
  = (Throw notAuthenticated, this, w).
Proof.
  intros H. unfold makeRequest.
  destruct H as [-> | ->]; [done|].
  by rewrite orb_true_r.
Qed.

(** C2. A request made while the access token or the instance URL is
    missing is refused with the "Not authenticated" error before
    anything is sent: the client and the world, hence the history of
    calls, are as before. *)
Theorem makeRequest_requires_session {T : Type}
    (axios : list NetCall -> AxiosRequestConfig -> AxiosResult T)
    axios_post method path body params this w :
  truthy (accessToken (config this)) = false
  \/ truthy (instanceUrl (config this)) = false ->
  makeRequest axios axios_post method path body params this w
  = (Throw (JsError "Not authenticated. Call connect() first."), this, w).
Proof. apply makeRequest_requires_session_aux. Qed.

Lemma makeRequest_requires_session_witness :
  makeRequest (Scenario.scripted [Scenario.ok "never sent"])
    (Scenario.scriptedPost []) GET "/sobjects" None None
    (new Scenario.urlOnlyConfig) Scenario.quiet
  = (Throw (JsError "Not authenticated. Call connect() first."),
     new Scenario.urlOnlyConfig, Scenario.quiet).
Proof.
  apply (makeRequest_requires_session (T := string)). left. reflexivity.
Defined.

Lemma refreshAccessToken_calls axios_post a sandbox w ok a' w' :
  SalesforcePasswordAuth.refreshAccessToken axios_post a sandbox w = (ok, a', w') ->
  (ok = false /\ calls w' = calls w)
  \/ (truthy (SalesforcePasswordAuth.refreshToken a) = true
      /\ calls w' = calls w
           ++ [AxiosPost (getOAuthTokenUrl sandbox) (refreshForm a)
                 SalesforcePasswordAuth.formHeaders]).
Proof.
  unfold SalesforcePasswordAuth.refreshAccessToken.
  destruct (truthy (SalesforcePasswordAuth.refreshToken a)); cbn [negb].
  - intros H. right. split; [done|]. revert H. fold (refreshForm a).
    destruct (axios_post _ _ _ _) as [r|e].
    + destruct (status r =? 200)%Z; intros [= <- <- <-]; by log_calls.
    + intros [= <- <- <-]. by log_calls.
  - intros [= <- <- <-]. by left.
Qed.

(** What [tryTokenRefresh] sends: nothing when it fails before the
    post, otherwise the one refresh post of the exchanger it holds. It
    never touches the metadata cache. *)
Lemma tryTokenRefresh_calls axios_post this w ok this' w' :
  tryTokenRefresh axios_post this w = (ok, this', w') ->
  sobjectsCache this' = sobjectsCache this
  /\ ((ok = false /\ calls w' = calls w)
      \/ (exists a, authClient this = Some a
            /\ calls w' = calls w
                 ++ [AxiosPost (getOAuthTokenUrl (sandbox (config this)))
                       (refreshForm a) SalesforcePasswordAuth.formHeaders])).
Proof.
  unfold tryTokenRefresh.
  destruct (authClient this) as [a|]; [|intros [= <- <- <-]; split; [done|by left]].
  destruct (truthy (SalesforcePasswordAuth.refreshToken a));
    [|intros [= <- <- <-]; split; [done|by left]].
  destruct (SalesforcePasswordAuth.refreshAccessToken _ _ _ _)
    as [[ok1 a1] w1] eqn:E.
  apply refreshAccessToken_calls in E. rewrite calls_debugLog in E.
  destruct ok1; intros [= <- <- <-]; (split; [done|]).
  - destruct E as [[? _]|[_ E]]; [done|]. right. by exists a.
  - destruct E as [[_ E]|[_ E]].
    + left. by log_calls.
    + right. exists a. by log_calls.
Qed.


(** [makeRequest] in terms of the request it builds. *)
Lemma makeRequest_eq {T : Type}
    (axios : list NetCall -> AxiosRequestConfig -> AxiosResult T)
    axios_post method path body params this w :
  makeRequest axios axios_post method path body params this w
  = if negb (truthy (accessToken (config this)))
       || negb (truthy (instanceUrl (config this)))
    then (Throw notAuthenticated, this, w)
    else
      let request := requestConfig this method path body params in
      match axios (calls w) request with
      | Resolved r => (Return (data r), this, issue (AxiosCall request) w)
      | Rejected error =>
          if isUnauthorized error then
            let '(refreshed, this', w') :=
              tryTokenRefresh axios_post this (issue (AxiosCall request) w) in
            if refreshed then
              let retry :=
                setAuthorization
                  ("Bearer " +:+ template (accessToken (config this'))) request in
              (await (axios (calls w') retry), this', issue (AxiosCall retry) w')
            else (Throw (handleRequestError error), this', w')
          else (Throw (handleRequestError error), this,
                issue (AxiosCall request) w)
      end.
Proof.
  unfold makeRequest, requestConfig.
  destruct (_ || _); [done|]. cbv zeta.
  destruct (axios (calls w) _) as [r|e]; [done|].
  destruct (isUnauthorized e); [|done].
  destruct (tryTokenRefresh _ _ _) as [[[] this'] w']; [|done].
  by destruct (axios (calls w') _).
Qed.



(** The token is refused twice: the renewal succeeds, the retry gets a
    401 again, and the call ends with that second error after two
    requests and one refresh. *)
Example makeRequest_401_twice :
  let axios :=
    Scenario.scripted (T := string) [Scenario.unauthorized; Scenario.unauthorized] in
  let axios_post :=
    Scenario.scriptedPost [Scenario.ok (Scenario.grant "new-token" None)] in
  let result :=
    makeRequest axios axios_post GET "/sobjects" None None
      Scenario.expiredClient Scenario.quiet in
  (exists error, result.1.1 = Throw error /\ isUnauthorized error = true)
  /\ List.length (dataCalls (calls result.2)) = 2
  /\ List.length (tokenPosts (calls result.2)) = 1.
Proof.
  cbv zeta. split; [eexists; split; reflexivity|]. split; reflexivity.
Qed.

(** The client holds no exchanger: the renewal flow has nothing to
    renew with, and the first error ends the call after one request. *)
Example makeRequest_401_without_exchanger :
  let axios := Scenario.scripted (T := string) [Scenario.unauthorized] in
  let result :=
    makeRequest axios (Scenario.scriptedPost []) GET "/sobjects" None None
      (new Scenario.tokenConfig) Scenario.quiet in
  result.1.1 = Throw (JsError "Salesforce API Error: Session expired or invalid")
  /\ List.length (calls result.2) = 1.
Proof. split; reflexivity. Qed.

(** *** The credential exchanger *)

Lemma authenticate_calls axios_post this username password securityToken
    sandbox w ok this' w' :
  SalesforcePasswordAuth.authenticate axios_post this username password
    securityToken sandbox w = (ok, this', w') ->
  calls w' = calls w
    ++ [AxiosPost (getOAuthTokenUrl sandbox)
          (exchangeForm this username password securityToken)
          SalesforcePasswordAuth.formHeaders].
Proof.
  unfold SalesforcePasswordAuth.authenticate, exchangeForm.
  destruct (axios_post _ _ _ _) as [r|e].
  - destruct (status r =? 200)%Z; intros [= <- <- <-]; by log_calls.
  - intros [= <- <- <-]. by log_calls.
Qed.

Lemma handleAuthFailure_calls this w :
  exists w', handleAuthFailure this w = (Return false, this, w')
             /\ calls w' = calls w.
Proof. eexists. split; [reflexivity|]. by log_calls. Qed.

(** C5. [authenticate] sends exactly one request: a post to the token
    URL of the selected environment (the sandbox base when the flag is
    set, the production base otherwise) whose form carries the password
    followed by the security token when a token is supplied, and the
    password alone otherwise. In the documented scenario (password [p],
    token [tok], sandbox) the field is [ptok] and the post goes to the
    sandbox base, also when the exchange is reached through
    [connect]. *)
Theorem authenticate_posts_combined_password
    axios_post this username password securityToken sandbox w :
  (let w' := (SalesforcePasswordAuth.authenticate axios_post this
                username password securityToken sandbox w).2 in
   exists form,
     calls w' = calls w
       ++ [AxiosPost
             ((if sandbox then "https://test.salesforce.com"
               else "https://login.salesforce.com") +:+ "/services/oauth2/token")
             form SalesforcePasswordAuth.formHeaders]
     /\ form = exchangeForm this username password securityToken
     /\ searchParamsGet "password" form
        = Some (if nonempty securityToken then password +:+ securityToken
                else password))
  /\ (forall T (axios : list NetCall -> AxiosRequestConfig -> AxiosResult T),
      exists form,
        calls (connect axios axios_post (new Scenario.sandboxConfig) w).2
        = calls w
          ++ [AxiosPost "https://test.salesforce.com/services/oauth2/token"
                form SalesforcePasswordAuth.formHeaders]
        /\ searchParamsGet "grant_type" form = Some "password"
        /\ searchParamsGet "password" form = Some "ptok").
Proof.
  split.
  - destruct (SalesforcePasswordAuth.authenticate _ _ _ _ _ _ _)
      as [[ok this'] w'] eqn:E.
    apply authenticate_calls in E. cbn [snd].
    exists (exchangeForm this username password securityToken).
    split; [|split; [done|reflexivity]].
    rewrite E. by destruct sandbox.
  - intros T axios.
    exists (exchangeForm (SalesforcePasswordAuth.new "id1" "sec1") "u@x.com" "p" "tok").
    split; [|split; reflexivity].
    unfold connect, orElse, tryAccessTokenAuth, tryUsernamePasswordAuth.
    cbn -[SalesforcePasswordAuth.authenticate handleAuthFailure].
    destruct (SalesforcePasswordAuth.authenticate _ _ _ _ _ _ _)
      as [[ok this'] w'] eqn:E.
    apply authenticate_calls in E. rewrite calls_debugLog in E.
    destruct ok; cbn -[handleAuthFailure]; [done|].
    destruct (handleAuthFailure_calls
                (setAuthClient this' (new Scenario.sandboxConfig))
                (errorLog [Lit "❌ Username/password authentication failed"] w'))
      as (w'' & -> & Hc).
    cbn. rewrite Hc. by log_calls.
Qed.

(** C6. Without a refresh token (absent or empty) [refreshAccessToken]
    gives up at once: it answers [false], reports "No refresh token
    available" on the error console, leaves the session as it is and
    sends nothing. *)
Theorem refreshAccessToken_without_refresh_token axios_post this sandbox w :
  truthy (SalesforcePasswordAuth.refreshToken this) = false ->
  SalesforcePasswordAuth.refreshAccessToken axios_post this sandbox w
  = (false, this, print (console_error [Lit "❌ No refresh token available"]) w)
  /\ calls (SalesforcePasswordAuth.refreshAccessToken axios_post this sandbox w).2
     = calls w.
Proof.
  intros H. unfold SalesforcePasswordAuth.refreshAccessToken. by rewrite H.
Qed.

Lemma refreshAccessToken_without_refresh_token_witness :
  SalesforcePasswordAuth.refreshAccessToken
    (Scenario.scriptedPost [Scenario.ok (Scenario.grant "new-token" None)])
    Scenario.notRenewable false Scenario.quiet
  = (false, Scenario.notRenewable,
     print (console_error [Lit "❌ No refresh token available"]) Scenario.quiet)
  /\ calls (SalesforcePasswordAuth.refreshAccessToken
              (Scenario.scriptedPost [Scenario.ok (Scenario.grant "new-token" None)])
              Scenario.notRenewable false Scenario.quiet).2
     = [].
Proof.
  apply (refreshAccessToken_without_refresh_token
           (Scenario.scriptedPost [Scenario.ok (Scenario.grant "new-token" None)])
           Scenario.notRenewable false Scenario.quiet).
  reflexivity.
Defined.

(** An exchange whose answer has no [refresh_token] leaves the
    exchanger without refresh material. *)
Lemma authenticate_without_refresh_token axios_post this u p s sandbox w r :
  axios_post (calls w) (getOAuthTokenUrl sandbox) (exchangeForm this u p s)
    SalesforcePasswordAuth.formHeaders = Resolved r ->
  status r = 200%Z ->
  refresh_token (data r) = None ->
  truthy (SalesforcePasswordAuth.refreshToken
            (SalesforcePasswordAuth.authenticate axios_post this u p s sandbox w).1.2)
  = false.
Proof.
  intros Ha Hs Hr. unfold SalesforcePasswordAuth.authenticate.
  rewrite calls_debugLog. fold (exchangeForm this u p s). rewrite Ha, Hs.
  cbn. by rewrite Hr.
Qed.

(** The refresh answers a 200: what [refreshAccessToken] does then. *)
Lemma refreshAccessToken_success axios_post this sandbox w r :
  truthy (SalesforcePasswordAuth.refreshToken this) = true ->
  axios_post (calls w) (getOAuthTokenUrl sandbox) (refreshForm this)
    SalesforcePasswordAuth.formHeaders = Resolved r ->
  status r = 200%Z ->
  SalesforcePasswordAuth.refreshAccessToken axios_post this sandbox w
  = (true,
     {| SalesforcePasswordAuth.clientId := SalesforcePasswordAuth.clientId this;
        SalesforcePasswordAuth.clientSecret := SalesforcePasswordAuth.clientSecret this;
        SalesforcePasswordAuth.accessToken := Some (access_token (data r));
        SalesforcePasswordAuth.instanceUrl := Some (instance_url (data r));
        SalesforcePasswordAuth.refreshToken := SalesforcePasswordAuth.refreshToken this |},
     debugLog "✅ Token refresh successful!"
       (issue (AxiosPost (getOAuthTokenUrl sandbox) (refreshForm this)
                 SalesforcePasswordAuth.formHeaders)
          (debugLog "🔄 Refreshing access token..." w))).
Proof.
  intros Ht Ha Hs. unfold SalesforcePasswordAuth.refreshAccessToken.
  rewrite Ht. cbn [negb]. rewrite calls_debugLog.
  fold (refreshForm this). rewrite Ha, Hs. reflexivity.
Qed.

(** C7, as the code has it. A successful refresh (the token endpoint
    answers 200) replaces the access token and the instance URL by
    those of the answer and keeps everything else, the stored refresh
    token included, whether or not the answer carries a
    [refresh_token]. *)
Theorem refreshAccessToken_replaces_session_only axios_post this sandbox w r :
  truthy (SalesforcePasswordAuth.refreshToken this) = true ->
  axios_post (calls w) (getOAuthTokenUrl sandbox) (refreshForm this)
    SalesforcePasswordAuth.formHeaders = Resolved r ->
  status r = 200%Z ->
  let '(ok, this', _) :=
    SalesforcePasswordAuth.refreshAccessToken axios_post this sandbox w in
  ok = true
  /\ SalesforcePasswordAuth.accessToken this' = Some (access_token (data r))
  /\ SalesforcePasswordAuth.instanceUrl this' = Some (instance_url (data r))
  /\ SalesforcePasswordAuth.refreshToken this'
     = SalesforcePasswordAuth.refreshToken this
  /\ SalesforcePasswordAuth.clientId this' = SalesforcePasswordAuth.clientId this
  /\ SalesforcePasswordAuth.clientSecret this'
     = SalesforcePasswordAuth.clientSecret this.
Proof.
  intros Ht Ha Hs.
  rewrite (refreshAccessToken_success _ _ _ _ _ Ht Ha Hs). by repeat split.
Qed.

Lemma refreshAccessToken_replaces_session_only_witness :
  let '(ok, this', _) :=
    SalesforcePasswordAuth.refreshAccessToken
      (Scenario.scriptedPost [Scenario.ok (Scenario.grant "new-token" None)])
      Scenario.renewable false Scenario.quiet in
  ok = true
  /\ SalesforcePasswordAuth.accessToken this' = Some "new-token"
  /\ SalesforcePasswordAuth.instanceUrl this' = Some "https://na1.salesforce.com"
  /\ SalesforcePasswordAuth.refreshToken this' = Some "old"
  /\ SalesforcePasswordAuth.clientId this' = "id1"
  /\ SalesforcePasswordAuth.clientSecret this' = "sec1".
Proof.
  apply (refreshAccessToken_replaces_session_only
           (Scenario.scriptedPost [Scenario.ok (Scenario.grant "new-token" None)])
           Scenario.renewable false Scenario.quiet
           {| status := 200; data := Scenario.grant "new-token" None |});
    reflexivity.
Defined.

(** C7, as stated, fails: the answer below supplies the refresh token
    [rotated], the refresh succeeds, and the exchanger still holds
    [old]. *)
Lemma refreshAccessToken_ignores_new_refresh_token :
  let answer := Scenario.grant "new-token" (Some "rotated") in
  let '(ok, this', _) :=
    SalesforcePasswordAuth.refreshAccessToken
      (Scenario.scriptedPost [Scenario.ok answer])
      Scenario.renewable false Scenario.quiet in
  ok = true
  /\ refresh_token answer = Some "rotated"
  /\ SalesforcePasswordAuth.refreshToken this' = Some "old"
  /\ SalesforcePasswordAuth.refreshToken this' <> refresh_token answer.
Proof. cbn. repeat split. discriminate. Qed.

(** *** The pass-through calls *)

(** C10. [toolingExecute] and [apexExecute] look at the instance URL
    only. Each is stopped by its own "Not authenticated" check, with
    nothing sent and nothing changed, exactly when the instance URL is
    missing. With an instance URL and no access token both send their
    request all the same (its bearer header is built from the missing
    token), whereas [makeRequest] refuses without sending anything. *)
Theorem pass_through_checks_instanceUrl_only {T : Type}
    (axios : list NetCall -> AxiosRequestConfig -> AxiosResult T)
    axios_post action method body path params this w :
  truthy (instanceUrl (config this)) = true ->
  truthy (accessToken (config this)) = false ->
  (forall this' w',
      toolingExecute axios action method body this' w'
      = (Throw notAuthenticated, this', w')
      <-> truthy (instanceUrl (config this')) = false)
  /\ (forall this' w',
      apexExecute axios action method body this' w'
      = (Throw notAuthenticated, this', w')
      <-> truthy (instanceUrl (config this')) = false)
  /\ (exists request,
      toolingExecute axios action method body this w
      = (await (axios (calls w) request), this, issue (AxiosCall request) w)
      /\ url request = template (instanceUrl (config this))
                       +:+ "/services/data/v58.0/tooling/" +:+ action
      /\ Authorization (headers request)
         = Some ("Bearer " +:+ template (accessToken (config this))))
  /\ (exists request,
      apexExecute axios action method body this w
      = (await (axios (calls w) request), this, issue (AxiosCall request) w)
      /\ url request = template (instanceUrl (config this))
                       +:+ "/services/apexrest"
                       +:+ (if startsWith "/" action then action
                            else "/" +:+ action)
      /\ Authorization (headers request)
         = Some ("Bearer " +:+ template (accessToken (config this))))
  /\ makeRequest axios axios_post method path body params this w
     = (Throw notAuthenticated, this, w).
Proof.
  intros Hi Ha. repeat apply conj.
  - intros this' w'. unfold toolingExecute.
    destruct (truthy (instanceUrl (config this'))); cbn [negb]; [|done].
    split; [|done]. destruct (axios _ _); intros [= _ H]; by apply issue_neq in H.
  - intros this' w'. unfold apexExecute.
    destruct (truthy (instanceUrl (config this'))); cbn [negb]; [|done].
    split; [|done]. destruct (axios _ _); intros [= _ H]; by apply issue_neq in H.
  - eexists. unfold toolingExecute. rewrite Hi. cbn [negb].
    split.
    { destruct (axios _ _) eqn:E; cbn zeta; rewrite E; reflexivity. }
    split; reflexivity.
  - eexists. unfold apexExecute. rewrite Hi. cbn [negb].
    split.
    { destruct (axios _ _) eqn:E; cbn zeta; rewrite E; reflexivity. }
    split; reflexivity.
  - apply makeRequest_requires_session_aux. by left.
Qed.

Lemma pass_through_checks_instanceUrl_only_witness :
  let axios := Scenario.scripted [Scenario.ok "answer"] in
  let this := new Scenario.urlOnlyConfig in
  (exists request,
      toolingExecute axios "query" GET None this Scenario.quiet
      = (Return "answer", this, issue (AxiosCall request) Scenario.quiet)
      /\ Authorization (headers request) = Some "Bearer undefined")
  /\ (exists request,
      apexExecute axios "query" GET None this Scenario.quiet
      = (Return "answer", this, issue (AxiosCall request) Scenario.quiet)
      /\ Authorization (headers request) = Some "Bearer undefined")
  /\ makeRequest axios (Scenario.scriptedPost []) GET "/query" None None
       this Scenario.quiet
     = (Throw notAuthenticated, this, Scenario.quiet).
Proof.
  destruct (pass_through_checks_instanceUrl_only
              (Scenario.scripted [Scenario.ok "answer"])
              (Scenario.scriptedPost []) "query" GET None "/query" None
              (new Scenario.urlOnlyConfig) Scenario.quiet
              eq_refl eq_refl)
    as (_ & _ & (r1 & E1 & _ & A1) & (r2 & E2 & _ & A2) & E3).
  cbv zeta. repeat apply conj.
  - exists r1. split; [exact E1 | exact A1].
  - exists r2. split; [exact E2 | exact A2].
  - exact E3.
Defined.

(** *** Establishing the connection *)

Lemma tryTokenRefresh_credentials axios_post this w ok this' w' :
  tryTokenRefresh axios_post this w = (ok, this', w') ->
  credentials (config this') = credentials (config this).
Proof.
  unfold tryTokenRefresh.
  destruct (authClient this) as [a|]; [|by intros [= <- <- <-]].
  destruct (truthy _); [|by intros [= <- <- <-]].
  destruct (SalesforcePasswordAuth.refreshAccessToken _ _ _ _) as [[[] a1] w1];
    by intros [= <- <- <-].
Qed.

(** What one [makeRequest] adds to the history: requests to the data
    endpoints and at most a refresh post, never a credential
    exchange. *)
Lemma makeRequest_frame {T : Type}
    (axios : list NetCall -> AxiosRequestConfig -> AxiosResult T)
    axios_post method path body params this w r this' w' :
  makeRequest axios axios_post method path body params this w = (r, this', w') ->
  sobjectsCache this' = sobjectsCache this
  /\ credentials (config this') = credentials (config this)
  /\ exists extra, calls w' = calls w ++ extra
                   /\ forallb (fun c => negb (isExchange c)) extra = true.
Proof.
  rewrite makeRequest_eq.
  destruct (_ || _).
  { intros [= <- <- <-]. repeat split. exists []. by rewrite app_nil_r. }
  cbv zeta. set (request := requestConfig _ _ _ _ _).
  destruct (axios (calls w) request) as [a|e].
  { intros [= <- <- <-]. repeat split. by exists [AxiosCall request]. }
  destruct (isUnauthorized e).
  2:{ intros [= <- <- <-]. repeat split. by exists [AxiosCall request]. }
  destruct (tryTokenRefresh _ _ _) as [[ok this1] w1] eqn:E.
  pose proof (tryTokenRefresh_credentials _ _ _ _ _ _ E) as Hcred.
  apply tryTokenRefresh_calls in E as [Hcache E]. rewrite calls_issue in E.
  assert (Hextra : exists extra, calls w1 = calls w ++ extra
            /\ forallb (fun c => negb (isExchange c)) extra = true).
  { destruct E as [[_ ->]|(a & _ & ->)]; rewrite <- ?app_assoc;
      (eexists; split; [reflexivity|reflexivity]). }
  destruct Hextra as (extra & Hcalls & Hextra).
  destruct ok; intros [= <- <- <-]; (split; [done|split; [done|]]).
  - eexists. rewrite calls_issue, Hcalls, <- app_assoc. split; [reflexivity|].
    rewrite forallb_app, Hextra. reflexivity.
  - by exists extra.
Qed.

(** What the password strategy does: nothing without the four
    credentials, one exchange with them; it never throws. *)
Lemma tryUsernamePasswordAuth_spec axios_post this w :
  exists b this' w',
    tryUsernamePasswordAuth axios_post this w = (Return b, this', w')
    /\ sobjectsCache this' = sobjectsCache this
    /\ calls w'
       = calls w
         ++ (if truthy (username (config this)) && truthy (password (config this))
                && nonempty (clientId (config this))
                && nonempty (clientSecret (config this))
             then [AxiosPost (getOAuthTokenUrl (sandbox (config this)))
                     (exchangeForm
                        (SalesforcePasswordAuth.new (clientId (config this))
                                                    (clientSecret (config this)))
                        (template (username (config this)))
                        (template (password (config this)))
                        (default "" (securityToken (config this))))
                     SalesforcePasswordAuth.formHeaders]
             else []).
Proof.
  unfold tryUsernamePasswordAuth.
  destruct (_ && _).
  - destruct (SalesforcePasswordAuth.authenticate _ _ _ _ _ _ _)
      as [[ok a] w1] eqn:E.
    apply authenticate_calls in E. rewrite calls_debugLog in E.
    destruct ok; eexists _, _, _; (split; [reflexivity|split; [done|]]);
      by log_calls.
  - eexists _, _, _. split; [reflexivity|]. split; [done|]. by rewrite app_nil_r.
Qed.

(** C8. A connection attempt on a configuration that carries an access
    token and an instance URL starts with the probe [GET /sobjects].
    If the probe succeeds the attempt succeeds there and then, and
    nothing it has sent is a credential exchange. If the probe fails
    the attempt is not aborted: it goes on with the password strategy
    (and its fallback) from the state the probe left, it does not
    throw, and when the configuration holds the four credentials the
    exchange is posted. *)
Theorem connect_probes_supplied_token_first {T : Type}
    (axios : list NetCall -> AxiosRequestConfig -> AxiosResult T)
    axios_post this w :
  truthy (accessToken (config this)) = true ->
  truthy (instanceUrl (config this)) = true ->
  match makeRequest axios axios_post GET "/sobjects" None None this
          (debugLog "🔑 Using access token from environment variables..." w) with
  | (Return _, this', w') =>
      connect axios axios_post this w
      = (Return true, this',
         debugLog "✅ Access token authentication successful!" w')
      /\ exists extra,
           calls (connect axios axios_post this w).2 = calls w ++ extra
           /\ forallb (fun c => negb (isExchange c)) extra = true
  | (Throw error, this', w') =>
      let w'' :=
        errorLog [Lit "❌ Access token is invalid or expired"; Obj error] w' in
      connect axios axios_post this w
      = orElse (tryUsernamePasswordAuth axios_post) handleAuthFailure this' w''
      /\ (exists b, (connect axios axios_post this w).1.1 = Return b)
      /\ (truthy (username (config this)) && truthy (password (config this))
          && nonempty (clientId (config this))
          && nonempty (clientSecret (config this)) = true ->
          exists form,
            calls (connect axios axios_post this w).2
            = calls w'
              ++ [AxiosPost (getOAuthTokenUrl (sandbox (config this))) form
                    SalesforcePasswordAuth.formHeaders]
            /\ isExchange (AxiosPost (getOAuthTokenUrl (sandbox (config this)))
                             form SalesforcePasswordAuth.formHeaders) = true)
  end.
Proof.
  intros Ha Hi.
  destruct (makeRequest _ _ _ _ _ _ _ _) as [[r this'] w'] eqn:E.
  pose proof (makeRequest_frame _ _ _ _ _ _ _ _ _ _ _ E)
    as (_ & Hcred & extra & Hcalls & Hextra).
  rewrite calls_debugLog in Hcalls.
  destruct r as [a|error].
  - assert (Hconnect : connect axios axios_post this w
      = (Return true, this',
         debugLog "✅ Access token authentication successful!" w')).
    { unfold connect, orElse at 1, tryAccessTokenAuth.
      rewrite Ha, Hi. cbn [andb]. by rewrite E. }
    rewrite Hconnect. split; [done|]. exists extra. cbn [snd].
    by rewrite calls_debugLog.
  - cbv zeta.
    set (w'' := errorLog _ w').
    destruct (tryUsernamePasswordAuth_spec axios_post this' w'')
      as (b & this2 & w2 & Hup & _ & Hup_calls).
    assert (Hconnect : connect axios axios_post this w
      = orElse (tryUsernamePasswordAuth axios_post) handleAuthFailure this' w'').
    { unfold connect, orElse at 1, tryAccessTokenAuth.
      rewrite Ha, Hi. cbn [andb]. rewrite E. fold w''.
      unfold orElse. rewrite Hup. destruct b; [done|].
      by destruct (handleAuthFailure_calls this2 w2) as (w3 & -> & _). }
    rewrite Hconnect.
    assert (Hc : calls w'' = calls w') by (subst w''; by log_calls).
    unfold credentials in Hcred. injection Hcred as Hid Hsec Huser Hpw Htok Hsb.
    rewrite Hid, Hsec, Huser, Hpw, Hsb, Hc in Hup_calls.
    unfold orElse. rewrite Hup.
    destruct b.
    + split; [done|]. split; [by exists true|].
      intros Hcreds. rewrite Hcreds in Hup_calls.
      eexists. cbn [snd]. split; [exact Hup_calls|reflexivity].
    + destruct (handleAuthFailure_calls this2 w2) as (w3 & -> & Hc3).
      split; [done|]. split; [by exists false|].
      intros Hcreds. rewrite Hcreds in Hup_calls.
      eexists. cbn [snd]. rewrite Hc3. split; [exact Hup_calls|reflexivity].
Qed.

Lemma connect_probes_supplied_token_first_witness :
  let axios := Scenario.scripted (T := string) [Scenario.unauthorized] in
  let axios_post :=
    Scenario.scriptedPost [Scenario.ok (Scenario.grant "fresh-token" None)] in
  let result := connect axios axios_post (new Scenario.fullConfig) Scenario.quiet in
  result.1.1 = Return true
  /\ accessToken (config result.1.2) = Some "fresh-token"
  /\ exists probe form,
       calls result.2
       = [AxiosCall probe;
          AxiosPost "https://test.salesforce.com/services/oauth2/token" form
            SalesforcePasswordAuth.formHeaders]
       /\ searchParamsGet "grant_type" form = Some "password".
Proof.
  intros axios axios_post result.
  pose proof (connect_probes_supplied_token_first axios axios_post
                (new Scenario.fullConfig) Scenario.quiet eq_refl eq_refl)
    as (Hconnect & _ & Hexchange).
  destruct (Hexchange eq_refl) as (form & Hcalls & Hform).
  fold result in Hconnect, Hcalls.
  split; [by rewrite Hconnect|]. split; [by rewrite Hconnect|].
  eexists _, form. split; [exact Hcalls|].
  unfold isExchange in Hform. by apply bool_decide_eq_true in Hform.
Defined.

(** The probe succeeds: the attempt succeeds on one request, and the
    credentials next to the token are not used. *)
Example connect_with_live_token :
  let axios := Scenario.scripted [Scenario.ok "object types"] in
  let axios_post :=
    Scenario.scriptedPost [Scenario.ok (Scenario.grant "fresh-token" None)] in
  let result := connect axios axios_post (new Scenario.fullConfig) Scenario.quiet in
  result.1.1 = Return true
  /\ accessToken (config result.1.2) = Some "stale-token"
  /\ tokenPosts (calls result.2) = []
  /\ List.length (dataCalls (calls result.2)) = 1.
Proof. repeat split. Qed.

(** C9, as the code has it. On a configuration with neither a token
    pair nor a username and password, [connect] answers [false]: it
    does not throw, it sends nothing and it leaves the client as it
    is. The two acceptable combinations are listed on the error
    console, by [errorLog], hence only when debug output is enabled.
    [ConfigManager.validateConfig], which [connect] does not call,
    rejects the same configuration with an error; its message names
    both combinations when the client identity is present. *)
Theorem connect_without_credentials_returns_false {T : Type}
    (axios : list NetCall -> AxiosRequestConfig -> AxiosResult T)
    axios_post this w :
  truthy (accessToken (config this)) && truthy (instanceUrl (config this)) = false ->
  truthy (username (config this)) && truthy (password (config this)) = false ->
  exists w',
    connect axios axios_post this w = (Return false, this, w')
    /\ calls w' = calls w
    /\ console w'
       = console w
         ++ (if debugEnabled w then
               [console_error
                  [Lit "❌ No valid authentication method found. Please set one of:"];
                console_error
                  [Lit "1. SALESFORCE_ACCESS_TOKEN + SALESFORCE_INSTANCE_URL"];
                console_error
                  [Lit "2. SALESFORCE_USERNAME + SALESFORCE_PASSWORD + SALESFORCE_CLIENT_ID + SALESFORCE_CLIENT_SECRET"]]
             else [])
    /\ ConfigManager.validateConfig (config this)
       = Some (JsError
           (if nonempty (clientId (config this))
               && nonempty (clientSecret (config this))
            then "Either (SALESFORCE_ACCESS_TOKEN + SALESFORCE_INSTANCE_URL) or (SALESFORCE_USERNAME + SALESFORCE_PASSWORD) must be provided"
            else "Client ID and Client Secret are required")).
Proof.
  intros Htok Hcred.
  eexists. split.
  { unfold connect, orElse, tryAccessTokenAuth, tryUsernamePasswordAuth.
    rewrite Htok, Hcred. cbn [andb]. reflexivity. }
  split; [by log_calls|]. split.
  - rewrite !console_errorLog, !debugEnabled_errorLog.
    destruct (debugEnabled w); by rewrite <- ?app_assoc, ?app_nil_r.
  - unfold ConfigManager.validateConfig. rewrite Htok, Hcred.
    destruct (nonempty (clientId (config this)));
      destruct (nonempty (clientSecret (config this))); reflexivity.
Qed.

Lemma connect_without_credentials_returns_false_witness :
  exists w',
    connect (Scenario.scripted [Scenario.ok "never sent"])
      (Scenario.scriptedPost [Scenario.ok (Scenario.grant "never sent" None)])
      (new Scenario.bareConfig) Scenario.verbose
    = (Return false, new Scenario.bareConfig, w')
    /\ calls w' = []
    /\ console w'
       = [console_error
            [Lit "❌ No valid authentication method found. Please set one of:"];
          console_error
            [Lit "1. SALESFORCE_ACCESS_TOKEN + SALESFORCE_INSTANCE_URL"];
          console_error
            [Lit "2. SALESFORCE_USERNAME + SALESFORCE_PASSWORD + SALESFORCE_CLIENT_ID + SALESFORCE_CLIENT_SECRET"]].
Proof.
  destruct (connect_without_credentials_returns_false
              (Scenario.scripted [Scenario.ok "never sent"])
              (Scenario.scriptedPost [Scenario.ok (Scenario.grant "never sent" None)])
              (new Scenario.bareConfig) Scenario.verbose eq_refl eq_refl)
    as (w' & Hconnect & Hcalls & Hconsole & _).
  exists w'. split; [exact Hconnect|]. split; [exact Hcalls|exact Hconsole].
Defined.

(** C9, as stated, fails: with debug output off the attempt below ends
    with the value [false], not with an error, and not a single line
    has been written. *)
Lemma connect_without_credentials_is_silent :
  let result :=
    connect (Scenario.scripted (T := string) []) (Scenario.scriptedPost [])
      (new Scenario.bareConfig) Scenario.quiet in
  result = (Return false, new Scenario.bareConfig, Scenario.quiet)
  /\ (forall error, result.1.1 <> Throw error)
  /\ console result.2 = [].
Proof. repeat split. discriminate. Qed.

(** *** Queries *)

Lemma makeRequest_resolved {T : Type}
    (axios : list NetCall -> AxiosRequestConfig -> AxiosResult T)
    axios_post method path body params this w st d :
  truthy (accessToken (config this)) = true ->
  truthy (instanceUrl (config this)) = true ->
  axios (calls w) (requestConfig this method path body params)
  = Resolved {| status := st; data := d |} ->
  makeRequest axios axios_post method path body params this w
  = (Return d, this, issue (AxiosCall (requestConfig this method path body params)) w).
Proof.
  intros Ha Hi Hanswer. rewrite makeRequest_eq, Ha, Hi. cbn [negb orb].
  cbv zeta. by rewrite Hanswer.
Qed.

Lemma calls_issueAll reqs w :
  calls (issueAll reqs w) = calls w ++ map AxiosCall reqs.
Proof.
  revert w. induction reqs as [|r reqs IH]; intros w; cbn.
  - by rewrite app_nil_r.
  - unfold issueAll in IH. rewrite IH, calls_issue, <- app_assoc. reflexivity.
Qed.

Section Draining.

Context {R : Type}.
Variable axios :
  list NetCall -> AxiosRequestConfig -> AxiosResult (SalesforceQueryResult R).
Variable axios_post :
  list NetCall -> string -> URLSearchParams -> Headers ->
  AxiosResult SalesforceAuthResponse.
Variable this : t.
Hypothesis Htoken : truthy (accessToken (config this)) = true.
Hypothesis Hurl : truthy (instanceUrl (config this)) = true.

(** The loop stops on a page that has no successor. *)
Lemma queryAllLoop_stops fuel (result : SalesforceQueryResult R) w :
  hasMore result = false ->
  queryAllLoop axios axios_post fuel result this w = Some (Return result, this, w).
Proof.
  unfold hasMore. intros H. destruct fuel; cbn; by rewrite H.
Qed.

(** The loop with pages left to fetch: [result] is what has been
    accumulated, [before ++ [final]] are the pages to come. *)
Lemma queryAllLoop_drains before :
  forall (result final : SalesforceQueryResult R) w fuel,
  hasMore result = true ->
  Forall (fun p => hasMore p = true) before ->
  hasMore final = false ->
  serves axios (calls w) (map (locatorRequest this) (result :: before))
    (before ++ [final]) ->
  List.length before < fuel ->
  queryAllLoop axios axios_post fuel result this w
  = Some (Return {| totalSize := totalSize final;
                    done := done final;
                    records := records result
                               ++ concat (map records (before ++ [final]));
                    nextRecordsUrl := nextRecordsUrl final |},
          this,
          issueAll (map (locatorRequest this) (result :: before)) w).
Proof.
  induction before as [|b before IH];
    intros result final w fuel Hmore Hbefore Hfinal Hserves Hfuel;
    (destruct fuel as [|fuel]; [cbn in Hfuel; lia|]).
  - destruct Hserves as [[st Hanswer] _].
    cbn [queryAllLoop]. fold (hasMore result). rewrite Hmore.
    unfold locatorRequest in Hanswer.
    rewrite (makeRequest_resolved _ _ _ _ _ _ _ _ _ _ Htoken Hurl Hanswer).
    rewrite queryAllLoop_stops by exact Hfinal.
    cbn. by rewrite app_nil_r.
  - destruct Hserves as [[st Hanswer] Hserves].
    apply Forall_cons in Hbefore as [Hb Hbefore].
    cbn [queryAllLoop]. fold (hasMore result). rewrite Hmore.
    unfold locatorRequest in Hanswer.
    rewrite (makeRequest_resolved _ _ _ _ _ _ _ _ _ _ Htoken Hurl Hanswer).
    rewrite (IH _ final); [ |exact Hb|exact Hbefore|exact Hfinal| |cbn in Hfuel; lia].
    + cbn. by rewrite <- app_assoc.
    + rewrite calls_issue. exact Hserves.
Qed.

End Draining.

(** C3. Let the service answer the query with the pages
    [before ++ [final]], one per request, where every page of [before]
    is not done and names its successor, and [final] is done or names
    no successor. Then [queryAll] ends (any bound on the loop of at
    least the number of pages in [before] is enough) with the records
    of all the pages in the order of arrival, and it has sent exactly
    one request per page: the query itself, once, and then the locator
    of each page of [before]. *)
Theorem queryAll_drains_every_page_once {R : Type}
    (axios : list NetCall -> AxiosRequestConfig -> AxiosResult (SalesforceQueryResult R))
    axios_post q this w (before : list (SalesforceQueryResult R)) final fuel :
  truthy (accessToken (config this)) = true ->
  truthy (instanceUrl (config this)) = true ->
  Forall (fun p => done p = false /\ truthy (nextRecordsUrl p) = true) before ->
  done final = true \/ truthy (nextRecordsUrl final) = false ->
  let pages := before ++ [final] in
  let requests :=
    requestConfig this GET "/query" None (Some [("q", SString q)])
    :: map (locatorRequest this) before in
  serves axios (calls w) requests pages ->
  List.length before <= fuel ->
  queryAll axios axios_post fuel q this w
  = Some (Return {| totalSize := totalSize final;
                    done := done final;
                    records := concat (map records pages);
                    nextRecordsUrl := nextRecordsUrl final |},
          this, issueAll requests w)
  /\ calls (issueAll requests w) = calls w ++ map AxiosCall requests
  /\ List.length requests = List.length pages.
Proof.
  intros Ha Hi Hbefore Hfinal pages requests Hserves Hfuel.
  assert (Hbefore' : Forall (fun p => hasMore p = true) before).
  { eapply Forall_impl; [exact Hbefore|]. intros p [Hd Hn]. unfold hasMore.
    by rewrite Hd, Hn. }
  assert (Hfinal' : hasMore final = false).
  { unfold hasMore. destruct Hfinal as [-> | ->]; [done|]. apply andb_false_r. }
  split; [|split].
  - unfold queryAll, query.
    destruct before as [|b before].
    + destruct Hserves as [[st Hanswer] _].
      rewrite (makeRequest_resolved _ _ _ _ _ _ _ _ _ _ Ha Hi Hanswer).
      rewrite queryAllLoop_stops by exact Hfinal'.
      subst pages. cbn. rewrite app_nil_r. by destruct final.
    + destruct Hserves as [[st Hanswer] Hserves].
      apply Forall_cons in Hbefore' as [Hb Hbefore'].
      rewrite (makeRequest_resolved _ _ _ _ _ _ _ _ _ _ Ha Hi Hanswer).
      rewrite (queryAllLoop_drains axios axios_post this Ha Hi before b final);
        [done|exact Hb|exact Hbefore'|exact Hfinal'| |cbn in Hfuel; lia].
      rewrite calls_issue. exact Hserves.
  - apply calls_issueAll.
  - subst requests pages. cbn. rewrite length_map, length_app. cbn. lia.
Qed.

Lemma queryAll_drains_every_page_once_witness :
  let axios :=
    Scenario.scripted [Scenario.ok Scenario.page1; Scenario.ok Scenario.page2;
                       Scenario.ok Scenario.page3] in
  let this := new Scenario.tokenConfig in
  let requests :=
    [requestConfig this GET "/query" None (Some [("q", SString "SELECT Id FROM Account")]);
     requestConfig this GET "/query/01g-2000" None None;
     requestConfig this GET "/query/01g-4000" None None] in
  queryAll axios (Scenario.scriptedPost []) 2 "SELECT Id FROM Account" this
    Scenario.quiet
  = Some (Return {| totalSize := 3;
                    done := true;
                    records := ["record 1"; "record 2"; "record 3"];
                    nextRecordsUrl := None |},
          this, issueAll requests Scenario.quiet)
  /\ calls (issueAll requests Scenario.quiet) = map AxiosCall requests
  /\ List.length requests = 3.
Proof.
  apply (queryAll_drains_every_page_once
           (Scenario.scripted [Scenario.ok Scenario.page1; Scenario.ok Scenario.page2;
                               Scenario.ok Scenario.page3])
           (Scenario.scriptedPost []) "SELECT Id FROM Account"
           (new Scenario.tokenConfig) Scenario.quiet
           [Scenario.page1; Scenario.page2] Scenario.page3 2).
  - reflexivity.
  - reflexivity.
  - repeat constructor.
  - left. reflexivity.
  - cbn. repeat split; eexists; reflexivity.
  - cbn. lia.
Defined.

(** A page that is not done and names no successor ends the loop: one
    request, and the page comes back as it is. *)
Example queryAll_stops_without_locator :
  queryAll (Scenario.scripted [Scenario.ok Scenario.danglingPage;
                               Scenario.ok Scenario.page2])
    (Scenario.scriptedPost []) 0 "SELECT Id FROM Account"
    (new Scenario.tokenConfig) Scenario.quiet
  = Some (Return Scenario.danglingPage, new Scenario.tokenConfig,
          issue (AxiosCall (requestConfig (new Scenario.tokenConfig) GET "/query" None
                              (Some [("q", SString "SELECT Id FROM Account")])))
            Scenario.quiet).
Proof. reflexivity. Qed.

(** *** The metadata cache *)

Lemma tryAccessTokenAuth_cache {T : Type}
    (axios : list NetCall -> AxiosRequestConfig -> AxiosResult T)
    axios_post this w r this' w' :
  tryAccessTokenAuth axios axios_post this w = (r, this', w') ->
  sobjectsCache this' = sobjectsCache this /\ exists b, r = Return b.
Proof.
  unfold tryAccessTokenAuth. destruct (_ && _).
  - destruct (makeRequest _ _ _ _ _ _ _ _) as [[r1 this1] w1] eqn:E.
    apply makeRequest_frame in E as [Hcache _].
    destruct r1; intros [= <- <- <-]; (split; [done|by eexists]).
  - intros [= <- <- <-]. split; [done|by eexists].
Qed.

Lemma connect_cache {T : Type}
    (axios : list NetCall -> AxiosRequestConfig -> AxiosResult T)
    axios_post this w r this' w' :
  connect axios axios_post this w = (r, this', w') ->
  sobjectsCache this' = sobjectsCache this.
Proof.
  unfold connect, orElse.
  destruct (tryAccessTokenAuth _ _ _ _) as [[r1 this1] w1] eqn:E1.
  apply tryAccessTokenAuth_cache in E1 as [Hc1 [b1 ->]].
  destruct b1; [by intros [= <- <- <-]|].
  destruct (tryUsernamePasswordAuth_spec axios_post this1 w1)
    as (b2 & this2 & w2 & -> & Hc2 & _).
  destruct b2; [intros [= <- <- <-]; congruence|].
  destruct (handleAuthFailure_calls this2 w2) as (w3 & -> & _).
  intros [= <- <- <-]. congruence.
Qed.

Lemma queryAllLoop_cache {R : Type}
    (axios : list NetCall -> AxiosRequestConfig -> AxiosResult (SalesforceQueryResult R))
    axios_post fuel :
  forall result this w r this' w',
  queryAllLoop axios axios_post fuel result this w = Some (r, this', w') ->
  sobjectsCache this' = sobjectsCache this.
Proof.
  induction fuel as [|fuel IH]; intros result this w r this' w'; cbn.
  - destruct (_ && _); [done|]. by intros [= <- <- <-].
  - destruct (_ && _); [|by intros [= <- <- <-]].
    destruct (makeRequest _ _ _ _ _ _ _ _) as [[r1 this1] w1] eqn:E.
    apply makeRequest_frame in E as [Hcache _].
    destruct r1 as [next|error].
    + intros H. apply IH in H. congruence.
    + intros [= <- <- <-]. done.
Qed.

(** No operation of the client removes or replaces an entry of the
    cache. *)
Lemma step_keeps_entries s s' (key : string) (cached : list SalesforceField) :
  step s s' ->
  sobjectsCache s.1 !! key = Some cached ->
  sobjectsCache s'.1 !! key = Some cached.
Proof.
  intros Hstep Hkey.
  enough (Hsame : sobjectsCache s'.1 = sobjectsCache s.1
                  \/ exists k v, sobjectsCache s.1 !! k = None
                       /\ sobjectsCache s'.1 = <[k := v]> (sobjectsCache s.1)).
  { destruct Hsame as [-> | (k & v & Hnone & ->)]; [done|].
    rewrite lookup_insert_ne; [done|]. intros ->. congruence. }
  clear Hkey.
  destruct Hstep as
    [ T axios axios_post this w r this' w' H
    | T axios axios_post m path body params this w r this' w' H
    | R axios axios_post q this w r this' w' H
    | R axios axios_post fuel q this w r this' w' H
    | R axios axios_post q this w r this' w' H
    | axios axios_post objectName this w r this' w' H
    | T axios axios_post objectName recordId fs this w r this' w' H
    | T axios axios_post objectName body this w r this' w' H
    | T axios axios_post objectName recordId body this w r this' w' H
    | T axios axios_post objectName recordId this w r this' w' H
    | T axios action m body this w r this' w' H
    | T axios action m body this w r this' w' H
    | T axios axios_post path m params body this w r this' w' H ];
    cbn [fst].
  - left. by apply connect_cache in H.
  - left. by apply makeRequest_frame in H as [? _].
  - left. by apply makeRequest_frame in H as [? _].
  - left. unfold queryAll, query in H.
    destruct (makeRequest _ _ _ _ _ _ _ _) as [[r1 this1] w1] eqn:E.
    apply makeRequest_frame in E as [Hcache _].
    destruct r1.
    + apply queryAllLoop_cache in H. congruence.
    + injection H as <- <- <-. done.
  - left. unfold search in H.
    destruct (makeRequest _ _ _ _ _ _ _ _) as [[r1 this1] w1] eqn:E.
    apply makeRequest_frame in E as [Hcache _].
    destruct r1; injection H as <- <- <-; done.
  - unfold getObjectFields in H.
    destruct (sobjectsCache this !! objectName) eqn:Hlookup.
    + left. by injection H as <- <- <-.
    + destruct (makeRequest _ _ _ _ _ _ _ _) as [[r1 this1] w1] eqn:E.
      apply makeRequest_frame in E as [Hcache _].
      destruct r1; injection H as <- <- <-.
      * right. eexists _, _. split; [exact Hlookup|]. cbn. by rewrite Hcache.
      * by left.
  - left. by apply makeRequest_frame in H as [? _].
  - left. by apply makeRequest_frame in H as [? _].
  - left. unfold updateRecord in H.
    destruct (makeRequest _ _ _ _ _ _ _ _) as [[r1 this1] w1] eqn:E.
    apply makeRequest_frame in E as [Hcache _].
    destruct r1; injection H as <- <- <-; done.
  - left. unfold deleteRecord in H.
    destruct (makeRequest _ _ _ _ _ _ _ _) as [[r1 this1] w1] eqn:E.
    apply makeRequest_frame in E as [Hcache _].
    destruct r1; injection H as <- <- <-; done.
  - left. unfold toolingExecute in H.
    destruct (negb _); [by injection H as <- <- <-|].
    destruct (axios _ _); by injection H as <- <- <-.
  - left. unfold apexExecute in H.
    destruct (negb _); [by injection H as <- <- <-|].
    destruct (axios _ _); by injection H as <- <- <-.
  - left. by apply makeRequest_frame in H as [? _].
Qed.

Lemma steps_keep_entries s s' (key : string) (cached : list SalesforceField) :
  rtc step s s' ->
  sobjectsCache s.1 !! key = Some cached ->
  sobjectsCache s'.1 !! key = Some cached.
Proof.
  induction 1 as [|s1 s2 s3 Hstep _ IH]; [done|].
  intros H. apply IH. by eapply step_keeps_entries.
Qed.

(** The cache belongs to the client object: a client built anew holds
    no entry. *)
Example new_client_has_empty_cache config (objectName : string) :
  sobjectsCache (new config) !! objectName = None.
Proof. apply lookup_empty. Qed.

Lemma getObjectFields_hit axios axios_post objectName this w cached :
  sobjectsCache this !! objectName = Some cached ->
  getObjectFields axios axios_post objectName this w = (Return cached, this, w).
Proof. intros H. unfold getObjectFields. by rewrite H. Qed.

(** A [makeRequest] that returns a value has sent its request. *)
Lemma makeRequest_returned {T : Type}
    (axios : list NetCall -> AxiosRequestConfig -> AxiosResult T)
    axios_post method path body params this w d this' w' :
  makeRequest axios axios_post method path body params this w
  = (Return d, this', w') ->
  exists extra,
    calls w' = calls w
      ++ AxiosCall (requestConfig this method path body params) :: extra.
Proof.
  rewrite makeRequest_eq. destruct (_ || _); [done|]. cbv zeta.
  destruct (axios (calls w) _) as [a|e].
  { intros [= <- <- <-]. by exists []. }
  destruct (isUnauthorized e); [|done].
  destruct (tryTokenRefresh _ _ _) as [[ok this1] w1] eqn:E.
  apply tryTokenRefresh_calls in E as [_ E]. rewrite calls_issue in E.
  destruct ok; [|done]. intros [= _ <- <-].
  destruct E as [[? _]|(a & _ & E)]; [done|].
  eexists. rewrite calls_issue, E, <- !app_assoc. reflexivity.
Qed.

(** C4, as the code has it. The cache belongs to one client object.
    The first call of [getObjectFields] for a name that is not in
    the cache fetches the description (the request for it is sent),
    extracts the field sequence, stores it under the name and returns
    it. From then on, whatever operations that client runs and
    whatever the service answers, a call on the same client for the
    same name returns the stored sequence and changes nothing: it
    sends no request, and no operation of the client removes or
    replaces the entry. *)
Theorem getObjectFields_caches_for_good
    axios axios_post objectName this w metadata this1 w1 :
  sobjectsCache this !! objectName = None ->
  makeRequest axios axios_post GET ("/sobjects/" +:+ objectName +:+ "/describe")
    None None this w = (Return metadata, this1, w1) ->
  exists this2,
    getObjectFields axios axios_post objectName this w
    = (Return (extractFields metadata), this2, w1)
    /\ (exists extra,
          calls w1 = calls w
            ++ AxiosCall (requestConfig this GET
                            ("/sobjects/" +:+ objectName +:+ "/describe") None None)
               :: extra)
    /\ sobjectsCache this2 !! objectName = Some (extractFields metadata)
    /\ forall this3 w3,
         rtc step (this2, w1) (this3, w3) ->
         sobjectsCache this3 !! objectName = Some (extractFields metadata)
         /\ forall axios' axios_post',
              getObjectFields axios' axios_post' objectName this3 w3
              = (Return (extractFields metadata), this3, w3).
Proof.
  intros Hmiss Hfetch.
  eexists. split.
  { unfold getObjectFields. rewrite Hmiss, Hfetch. reflexivity. }
  split; [by eapply makeRequest_returned|].
  assert (Hstored :
    sobjectsCache
      {| config := config this1;
         authClient := authClient this1;
         sobjectsCache := <[objectName := extractFields metadata]> (sobjectsCache this1) |}
      !! objectName = Some (extractFields metadata)).
  { cbn. apply lookup_insert_eq. }
  split; [exact Hstored|].
  intros this3 w3 Hsteps.
  pose proof (steps_keep_entries _ _ _ _ Hsteps Hstored) as Hkept.
  split; [exact Hkept|].
  intros axios' axios_post'. by apply getObjectFields_hit.
Qed.

Lemma getObjectFields_caches_for_good_witness :
  let axios := Scenario.scripted [Scenario.ok Scenario.accountMetadata] in
  let axios_post := Scenario.scriptedPost [] in
  let describe :=
    requestConfig (new Scenario.tokenConfig) GET "/sobjects/Account/describe"
      None None in
  exists this2 w1,
    getObjectFields axios axios_post "Account" (new Scenario.tokenConfig)
      Scenario.quiet
    = (Return (fields Scenario.accountMetadata), this2, w1)
    /\ calls w1 = [AxiosCall describe]
    /\ getObjectFields axios axios_post "Account" this2 w1
       = (Return (fields Scenario.accountMetadata), this2, w1).
Proof.
  intros axios axios_post describe.
  destruct (getObjectFields_caches_for_good axios axios_post "Account"
              (new Scenario.tokenConfig) Scenario.quiet
              Scenario.accountMetadata (new Scenario.tokenConfig)
              (issue (AxiosCall describe) Scenario.quiet)
              (lookup_empty _) eq_refl)
    as (this2 & Hfirst & _ & _ & Hlater).
  exists this2, (issue (AxiosCall describe) Scenario.quiet).
  split; [exact Hfirst|]. split; [reflexivity|].
  apply (Hlater this2 _ (rtc_refl _ _)).
Defined.

(** C4, as stated, fails within one process. The server below holds a
    client that has cached the fields of [Account]; a call for
    [Account] is answered from the cache without a request. Then
    [handleAuthenticatePassword] runs (the token of the environment is
    live, so it succeeds on the probe): it replaces the client of the
    server, the entry is gone, and the next call for [Account] sends
    the describe request again. *)
Lemma getObjectFields_refetches_after_authenticate_password :
  let axios := Scenario.scripted [Scenario.ok "object types"] in
  let axiosDescribe :=
    Scenario.scripted [Scenario.ok Scenario.accountMetadata;
                       Scenario.ok Scenario.accountMetadata] in
  let axios_post := Scenario.scriptedPost [] in
  let account := {| SalesforceMCPServer.g_object_name := "Account" |} in
  let cached :=
    SalesforceMCPServer.handleGetObjectFields axiosDescribe axios_post
      ServerScenario.noFields account ServerScenario.warmServer Scenario.quiet in
  let authenticated :=
    SalesforceMCPServer.handleAuthenticatePassword ServerScenario.tokenEnv
      axios axios_post ServerScenario.passwordArgs cached.1.2 cached.2 in
  let later :=
    SalesforceMCPServer.handleGetObjectFields axiosDescribe axios_post
      ServerScenario.noFields account authenticated.1.2 authenticated.2 in
  sobjectsCache (SalesforceMCPServer.salesforceClient ServerScenario.warmServer)
    !! "Account" = Some (fields Scenario.accountMetadata)
  /\ (exists r, cached.1.1 = Return r)
  /\ calls cached.2 = []
  /\ (exists r, authenticated.1.1 = Return r)
  /\ sobjectsCache (SalesforceMCPServer.salesforceClient authenticated.1.2)
       !! "Account" = None
  /\ (exists r, later.1.1 = Return r)
  /\ calls later.2
     = calls authenticated.2
       ++ [AxiosCall
             (requestConfig (SalesforceMCPServer.salesforceClient authenticated.1.2)
                GET "/sobjects/Account/describe" None None)].
Proof.
  cbv zeta.
  split; [vm_compute; reflexivity|].
  split; [vm_compute; eexists; reflexivity|].
  split; [vm_compute; reflexivity|].
  split; [vm_compute; eexists; reflexivity|].
  split; [vm_compute; reflexivity|].
  split; [vm_compute; eexists; reflexivity|].
  vm_compute; reflexivity.
Qed.

(** ** Further properties *)

(** *** Endpoints and configuration *)

Lemma stripTrailingSlash_app_slash s : stripTrailingSlash (s +:+ "/") = s.
Proof.
  induction s as [|c s IH]; [reflexivity|].
  destruct s as [|c' s']; [reflexivity|].
  change (stripTrailingSlash (String c (String c' s') +:+ "/"))
    with (String c (stripTrailingSlash (String c' s' +:+ "/"))).
  by rewrite IH.
Qed.

Lemma startsWith_slash_cons p : startsWith "/" ("/" +:+ p) = true.
Proof. unfold startsWith. cbn. by destruct p. Qed.

(** X1. [getApiUrl] tolerates a trailing slash on the instance URL and
    a missing or present leading slash on the path: for an instance
    URL that does not end in a slash and a path that does not start
    with one, the four ways of writing the pair give the same URL,
    the instance URL, the versioned prefix, one slash and the path. *)
Theorem getApiUrl_tolerates_slashes (inst p : string) :
  stripTrailingSlash inst = inst ->
  startsWith "/" p = false ->
  let u := inst +:+ "/services/data/v58.0/" +:+ p in
  getApiUrl inst p = u
  /\ getApiUrl inst ("/" +:+ p) = u
  /\ getApiUrl (inst +:+ "/") p = u
  /\ getApiUrl (inst +:+ "/") ("/" +:+ p) = u.
Proof.
  intros Hinst Hp u. unfold getApiUrl.
  rewrite stripTrailingSlash_app_slash, Hinst, Hp, startsWith_slash_cons.
  by repeat split.
Qed.

Lemma getApiUrl_tolerates_slashes_witness :
  let u := "https://x.my.salesforce.com/services/data/v58.0/sobjects" in
  getApiUrl "https://x.my.salesforce.com" "sobjects" = u
  /\ getApiUrl "https://x.my.salesforce.com" "/sobjects" = u
  /\ getApiUrl "https://x.my.salesforce.com/" "sobjects" = u
  /\ getApiUrl "https://x.my.salesforce.com/" "/sobjects" = u.
Proof.
  apply (getApiUrl_tolerates_slashes "https://x.my.salesforce.com" "sobjects");
    reflexivity.
Defined.

Lemma validateConfig_None_iff (c : SalesforceConfig) :
  ConfigManager.validateConfig c = None
  <-> nonempty (clientId c) = true
      /\ nonempty (clientSecret c) = true
      /\ (truthy (accessToken c) && truthy (instanceUrl c) = true
          \/ truthy (username c) && truthy (password c) = true).
Proof.
  unfold ConfigManager.validateConfig.
  destruct (nonempty (clientId c)), (nonempty (clientSecret c)); cbn;
    try (split; [discriminate|intros (? & ? & ?); discriminate]).
  destruct (truthy (accessToken c) && truthy (instanceUrl c)),
           (truthy (username c) && truthy (password c)); cbn;
    try (split; [intros _; repeat split; auto|reflexivity]).
  split; [discriminate|]. intros (_ & _ & [?|?]); discriminate.
Qed.

(** X2. [validateConfig] accepts a configuration exactly when the
    client id and the client secret are non-empty and at least one of
    the two pairs, access token with instance URL or username with
    password, is complete. *)
Theorem validateConfig_accepts_iff (c : SalesforceConfig) :
  ConfigManager.validateConfig c = None
  <-> nonempty (clientId c) = true
      /\ nonempty (clientSecret c) = true
      /\ (truthy (accessToken c) && truthy (instanceUrl c) = true
          \/ truthy (username c) && truthy (password c) = true).
Proof. apply validateConfig_None_iff. Qed.

Lemma getSalesforceConfig_identity (env : gmap string string) c :
  ConfigManager.getSalesforceConfig env = inr c ->
  nonempty (clientId c) = true /\ nonempty (clientSecret c) = true.
Proof.
  unfold ConfigManager.getSalesforceConfig.
  destruct (nullish (env !! "SALESFORCE_CLIENT_ID") _) as [i|];
    [|discriminate].
  destruct (nullish (env !! "SALESFORCE_CLIENT_SECRET") _) as [s|];
    [|rewrite orb_true_r; discriminate].
  unfold truthy, nonempty.
  destruct (String.eqb i "") eqn:Hi; cbn; [discriminate|].
  destruct (String.eqb s "") eqn:Hs; cbn; [discriminate|].
  intros [= <-]. cbn. by rewrite Hi, Hs.
Qed.

(** X3. A configuration that [getSalesforceConfig] returns always has a
    non-empty client id and client secret. *)
Theorem getSalesforceConfig_has_identity (env : gmap string string) c :
  ConfigManager.getSalesforceConfig env = inr c ->
  nonempty (clientId c) = true /\ nonempty (clientSecret c) = true.
Proof. apply getSalesforceConfig_identity. Qed.

Lemma getSalesforceConfig_has_identity_witness :
  nonempty (clientId Scenario.bareConfig) = true
  /\ nonempty (clientSecret Scenario.bareConfig) = true.
Proof.
  apply (getSalesforceConfig_has_identity ServerScenario.bareEnv).
  vm_compute. reflexivity.
Defined.

(** X4. A primary variable that is set to the empty string is not
    replaced by its fallback: with [SALESFORCE_CLIENT_ID] or
    [SALESFORCE_CLIENT_SECRET] empty, [getSalesforceConfig] throws the
    missing-variables error whatever [SF_CONSUMER_KEY] and
    [SF_CONSUMER_SECRET] hold. *)
Theorem getSalesforceConfig_empty_primary_masks_fallback (env : gmap string string) :
  env !! "SALESFORCE_CLIENT_ID" = Some ""
  \/ env !! "SALESFORCE_CLIENT_SECRET" = Some "" ->
  ConfigManager.getSalesforceConfig env
  = inl (JsError
      "Missing required environment variables: SALESFORCE_CLIENT_ID and SALESFORCE_CLIENT_SECRET must be set").
Proof.
  unfold ConfigManager.getSalesforceConfig.
  intros [-> | ->]; cbn [nullish truthy String.eqb negb orb]; [done|].
  by rewrite orb_true_r.
Qed.

Lemma getSalesforceConfig_empty_primary_masks_fallback_witness :
  ServerScenario.maskedEnv !! "SF_CONSUMER_KEY" = Some "key1"
  /\ ConfigManager.getSalesforceConfig ServerScenario.maskedEnv
     = inl (JsError
         "Missing required environment variables: SALESFORCE_CLIENT_ID and SALESFORCE_CLIENT_SECRET must be set").
Proof.
  split; [vm_compute; reflexivity|].
  apply getSalesforceConfig_empty_primary_masks_fallback.
  left. vm_compute. reflexivity.
Defined.

(** X5. [getValidatedConfig] returns only configurations that
    [validateConfig] accepts, and it never throws "Client ID and
    Client Secret are required": [getSalesforceConfig] has thrown its
    own error before that check can fail. *)
Theorem getValidatedConfig_validates (env : gmap string string) :
  match ConfigManager.getValidatedConfig env with
  | inl error => error <> JsError "Client ID and Client Secret are required"
  | inr c =>
      ConfigManager.getSalesforceConfig env = inr c
      /\ ConfigManager.validateConfig c = None
  end.
Proof.
  unfold ConfigManager.getValidatedConfig.
  destruct (ConfigManager.getSalesforceConfig env) as [e|c] eqn:E.
  - unfold ConfigManager.getSalesforceConfig in E.
    destruct (_ || _); [|discriminate]. by injection E as <-.
  - apply getSalesforceConfig_identity in E as [Hi Hs].
    destruct (ConfigManager.validateConfig c) as [e|] eqn:Hv; [|done].
    unfold ConfigManager.validateConfig in Hv. rewrite Hi, Hs in Hv. cbn in Hv.
    destruct (_ && _); [|discriminate]. by injection Hv as <-.
Qed.

(** *** The connection strategies *)

(** The password strategy followed by the listing of the missing
    settings: it never throws, it leaves the cache alone, it sends the
    exchange exactly when the four credentials are there, and it
    succeeds exactly when the exchange is answered with a 200; then
    the session of the answer is in the configuration and in the
    exchanger the client holds. *)
Lemma password_strategy_spec axios_post this w :
  let answer :=
    axios_post (calls w) (getOAuthTokenUrl (sandbox (config this)))
      (exchangeForm
         (SalesforcePasswordAuth.new (clientId (config this))
                                     (clientSecret (config this)))
         (template (username (config this)))
         (template (password (config this)))
         (default "" (securityToken (config this))))
      SalesforcePasswordAuth.formHeaders in
  let b := hasCredentials (config this) && granted answer in
  exists this' w',
    orElse (tryUsernamePasswordAuth axios_post) handleAuthFailure this w
    = (Return b, this', w')
    /\ sobjectsCache this' = sobjectsCache this
    /\ credentials (config this') = credentials (config this)
    /\ calls w'
       = calls w ++ (if hasCredentials (config this)
                     then [exchangePost (config this)] else [])
    /\ (if b then
          exists r, answer = Resolved r
            /\ accessToken (config this') = Some (access_token (data r))
            /\ instanceUrl (config this') = Some (instance_url (data r))
            /\ authClient this'
               = Some {| SalesforcePasswordAuth.clientId := clientId (config this);
                         SalesforcePasswordAuth.clientSecret := clientSecret (config this);
                         SalesforcePasswordAuth.accessToken := Some (access_token (data r));
                         SalesforcePasswordAuth.instanceUrl := Some (instance_url (data r));
                         SalesforcePasswordAuth.refreshToken := refresh_token (data r) |}
        else config this' = config this).
Proof.
  intros answer b. subst b.
  unfold orElse, tryUsernamePasswordAuth, hasCredentials, exchangePost.
  destruct (_ && _ && _ && _); cbn [andb].
  2:{ destruct (handleAuthFailure_calls this w) as (w' & -> & Hc).
      exists this, w'. split; [done|]. split; [done|]. split; [done|].
      split; [by rewrite Hc, app_nil_r|done]. }
  unfold SalesforcePasswordAuth.authenticate. rewrite !calls_debugLog.
  fold (exchangeForm
          (SalesforcePasswordAuth.new (clientId (config this))
                                      (clientSecret (config this)))
          (template (username (config this)))
          (template (password (config this)))
          (default "" (securityToken (config this)))).
  fold answer. destruct answer as [r|e] eqn:Hanswer; cbn [granted].
  - destruct (status r =? 200)%Z.
    + eexists _, _. split; [reflexivity|]. split; [done|]. split; [done|].
      split; [by log_calls|]. by exists r.
    + match goal with
      | |- context [handleAuthFailure ?c ?x] =>
          destruct (handleAuthFailure_calls c x) as (w' & -> & Hc)
      end.
      eexists _, _. split; [reflexivity|]. split; [done|]. split; [done|].
      split; [|done]. rewrite Hc. by log_calls.
  - match goal with
    | |- context [handleAuthFailure ?c ?x] =>
        destruct (handleAuthFailure_calls c x) as (w' & -> & Hc)
    end.
    eexists _, _. split; [reflexivity|]. split; [done|]. split; [done|].
    split; [|done]. rewrite Hc. by log_calls.
Qed.

(** [connect] without its unreachable [catch]. *)
Lemma connect_eq {T : Type}
    (axios : list NetCall -> AxiosRequestConfig -> AxiosResult T)
    axios_post this w :
  connect axios axios_post this w
  = if truthy (accessToken (config this)) && truthy (instanceUrl (config this))
    then
      match makeRequest axios axios_post GET "/sobjects" None None this
              (debugLog "🔑 Using access token from environment variables..." w) with
      | (Return _, this', w') =>
          (Return true, this',
           debugLog "✅ Access token authentication successful!" w')
      | (Throw error, this', w') =>
          orElse (tryUsernamePasswordAuth axios_post) handleAuthFailure this'
            (errorLog [Lit "❌ Access token is invalid or expired"; Obj error] w')
      end
    else orElse (tryUsernamePasswordAuth axios_post) handleAuthFailure this w.
Proof.
  unfold connect, orElse at 1, tryAccessTokenAuth.
  destruct (_ && _).
  - destruct (makeRequest _ _ _ _ _ _ _ _) as [[[d|error] this'] w']; [done|].
    destruct (password_strategy_spec axios_post this'
                (errorLog [Lit "❌ Access token is invalid or expired"; Obj error] w'))
      as (this2 & w2 & -> & _). done.
  - destruct (password_strategy_spec axios_post this w) as (this2 & w2 & -> & _).
    done.
Qed.

(** A [makeRequest] on a valid session sends its request, whatever
    happens next. *)
Lemma makeRequest_sends {T : Type}
    (axios : list NetCall -> AxiosRequestConfig -> AxiosResult T)
    axios_post method path body params this w :
  truthy (accessToken (config this)) = true ->
  truthy (instanceUrl (config this)) = true ->
  exists extra,
    calls (makeRequest axios axios_post method path body params this w).2
    = calls w ++ AxiosCall (requestConfig this method path body params) :: extra.
Proof.
  intros Ha Hi. rewrite makeRequest_eq, Ha, Hi. cbn [negb orb]. cbv zeta.
  destruct (axios (calls w) _) as [a|e]; [by exists []|].
  destruct (isUnauthorized e); [|by exists []].
  destruct (tryTokenRefresh _ _ _) as [[ok this1] w1] eqn:E.
  apply tryTokenRefresh_calls in E as [_ E]. rewrite calls_issue in E.
  destruct ok; cbn [snd]; rewrite ?calls_issue;
    destruct E as [[_ ->]|(a & _ & ->)]; rewrite <- ?app_assoc;
    eexists; reflexivity.
Qed.

(** X6. The strategies that [connect] tries never throw: they end
    with [true] or [false]. So the [catch] clause of [connect], the
    only place where [connect] would try a token refresh, is never
    entered, and [connect] ends as the strategies do. *)
Theorem connect_catch_is_unreachable {T : Type}
    (axios : list NetCall -> AxiosRequestConfig -> AxiosResult T)
    axios_post this w :
  exists b this' w',
    orElse (tryAccessTokenAuth axios axios_post)
      (orElse (tryUsernamePasswordAuth axios_post) handleAuthFailure) this w
    = (Return b, this', w')
    /\ connect axios axios_post this w = (Return b, this', w').
Proof.
  assert (Hbody : exists b this' w',
    orElse (tryAccessTokenAuth axios axios_post)
      (orElse (tryUsernamePasswordAuth axios_post) handleAuthFailure) this w
    = (Return b, this', w')).
  { unfold orElse at 1, tryAccessTokenAuth.
    destruct (_ && _).
    - destruct (makeRequest _ _ _ _ _ _ _ _) as [[[d|error] this'] w'];
        [by eexists _, _, _|].
      destruct (password_strategy_spec axios_post this'
                  (errorLog [Lit "❌ Access token is invalid or expired"; Obj error] w'))
        as (this2 & w2 & -> & _). by eexists _, _, _.
    - destruct (password_strategy_spec axios_post this w)
        as (this2 & w2 & -> & _). by eexists _, _, _. }
  destruct Hbody as (b & this' & w' & Hbody).
  exists b, this', w'. split; [exact Hbody|].
  unfold connect. by rewrite Hbody.
Qed.

(** X7. On a configuration that [validateConfig] accepts, [connect]
    goes to the network: it sends at least one call, the probe of the
    supplied token or the credential exchange. *)
Theorem connect_on_valid_config_calls_out {T : Type}
    (axios : list NetCall -> AxiosRequestConfig -> AxiosResult T)
    axios_post this w :
  ConfigManager.validateConfig (config this) = None ->
  exists first rest,
    calls (connect axios axios_post this w).2 = calls w ++ first :: rest
    /\ (first = AxiosCall (requestConfig this GET "/sobjects" None None)
        \/ first = exchangePost (config this)).
Proof.
  intros Hvalid. apply validateConfig_None_iff in Hvalid as (Hid & Hsec & Hpair).
  rewrite connect_eq.
  destruct (truthy (accessToken (config this)) && truthy (instanceUrl (config this)))
    eqn:Htok.
  - apply andb_prop in Htok as [Ha Hi].
    destruct (makeRequest_sends axios axios_post GET "/sobjects" None None this
                (debugLog "🔑 Using access token from environment variables..." w)
                Ha Hi) as (extra & Hsent).
    rewrite calls_debugLog in Hsent.
    destruct (makeRequest _ _ _ _ _ _ _ _) as [[[d|error] this'] w'];
      cbn [snd] in Hsent.
    + eexists _, _. cbn [snd]. rewrite calls_debugLog. split; [exact Hsent|by left].
    + destruct (password_strategy_spec axios_post this'
                  (errorLog [Lit "❌ Access token is invalid or expired"; Obj error] w'))
        as (this2 & w2 & -> & _ & _ & Hc & _).
      cbn [snd]. rewrite Hc, calls_errorLog, Hsent, <- app_assoc.
      eexists _, _. split; [reflexivity|by left].
  - destruct Hpair as [?|Hcred]; [discriminate|].
    destruct (password_strategy_spec axios_post this w)
      as (this2 & w2 & -> & _ & _ & Hc & _).
    unfold hasCredentials in Hc. rewrite Hcred, Hid, Hsec in Hc. cbn [andb] in Hc.
    eexists _, _. cbn [snd]. split; [exact Hc|by right].
Qed.

Lemma connect_on_valid_config_calls_out_witness :
  exists first rest,
    calls (connect (Scenario.scripted (T := string) []) (Scenario.scriptedPost [])
             (new Scenario.sandboxConfig) Scenario.quiet).2
    = first :: rest
    /\ (first = AxiosCall (requestConfig (new Scenario.sandboxConfig) GET
                             "/sobjects" None None)
        \/ first = exchangePost Scenario.sandboxConfig).
Proof.
  apply (connect_on_valid_config_calls_out
           (Scenario.scripted (T := string) []) (Scenario.scriptedPost [])
           (new Scenario.sandboxConfig) Scenario.quiet).
  reflexivity.
Defined.

(** X8. Without a token pair in the configuration [connect] is the
    credential exchange alone: with the four credentials it sends
    exactly the exchange and answers [true] exactly when the token
    endpoint answers 200, in which case the session of the answer is
    in the configuration and the exchanger keeps the refresh token of
    the answer; without them it sends nothing and answers [false]. *)
Theorem connect_without_token_is_the_exchange {T : Type}
    (axios : list NetCall -> AxiosRequestConfig -> AxiosResult T)
    axios_post this w :
  truthy (accessToken (config this)) && truthy (instanceUrl (config this)) = false ->
  let answer :=
    axios_post (calls w) (getOAuthTokenUrl (sandbox (config this)))
      (exchangeForm
         (SalesforcePasswordAuth.new (clientId (config this))
                                     (clientSecret (config this)))
         (template (username (config this)))
         (template (password (config this)))
         (default "" (securityToken (config this))))
      SalesforcePasswordAuth.formHeaders in
  let result := connect axios axios_post this w in
  result.1.1 = Return (hasCredentials (config this) && granted answer)
  /\ calls result.2
     = calls w ++ (if hasCredentials (config this)
                   then [exchangePost (config this)] else [])
  /\ (hasCredentials (config this) && granted answer = true ->
      exists r, answer = Resolved r
        /\ accessToken (config result.1.2) = Some (access_token (data r))
        /\ instanceUrl (config result.1.2) = Some (instance_url (data r))
        /\ (SalesforcePasswordAuth.refreshToken <$> authClient result.1.2)
           = Some (refresh_token (data r))).
Proof.
  intros Htok answer result. subst result. rewrite connect_eq, Htok.
  destruct (password_strategy_spec axios_post this w)
    as (this2 & w2 & -> & _ & _ & Hc & Hb).
  fold answer in Hb |- *. cbn [fst snd].
  split; [done|]. split; [exact Hc|].
  intros Htrue. rewrite Htrue in Hb. destruct Hb as (r & Hr & Ha & Hi & Hauth).
  exists r. rewrite Hauth. by repeat split.
Qed.

Lemma connect_without_token_is_the_exchange_witness :
  let axios_post :=
    Scenario.scriptedPost [Scenario.ok (Scenario.grant "fresh-token" (Some "r1"))] in
  let result :=
    connect (Scenario.scripted (T := string) []) axios_post
      (new Scenario.sandboxConfig) Scenario.quiet in
  result.1.1 = Return true
  /\ calls result.2 = [exchangePost Scenario.sandboxConfig]
  /\ accessToken (config result.1.2) = Some "fresh-token"
  /\ (SalesforcePasswordAuth.refreshToken <$> authClient result.1.2)
     = Some (Some "r1").
Proof.
  intros axios_post result.
  destruct (connect_without_token_is_the_exchange
              (Scenario.scripted (T := string) []) axios_post
              (new Scenario.sandboxConfig) Scenario.quiet eq_refl)
    as (Hresult & Hcalls & Hsession).
  destruct (Hsession eq_refl) as (r & Hr & Ha & _ & Hrefresh).
  injection Hr as <-.
  split; [exact Hresult|]. split; [exact Hcalls|].
  split; [exact Ha|exact Hrefresh].
Defined.

(** *** The executor and the pass-through calls *)

Lemma makeRequest_rejected_other {T : Type}
    (axios : list NetCall -> AxiosRequestConfig -> AxiosResult T)
    axios_post method path body params this w error :
  truthy (accessToken (config this)) = true ->
  truthy (instanceUrl (config this)) = true ->
  let request := requestConfig this method path body params in
  axios (calls w) request = Rejected error ->
  isUnauthorized error = false ->
  makeRequest axios axios_post method path body params this w
  = (Throw (handleRequestError error), this, issue (AxiosCall request) w).
Proof.
  intros Ha Hi request Hanswer Hother.
  rewrite makeRequest_eq, Ha, Hi. cbn [negb orb]. cbv zeta.
  fold request. by rewrite Hanswer, Hother.
Qed.

(** X9. Only a 401 starts the renewal. When the first answer is any
    other failure (another status, no answer at all, a thrown value
    that is not an axios error) [makeRequest] sends nothing more,
    leaves the client as it is and throws the error as translated by
    [handleRequestError]. *)
Theorem makeRequest_does_not_retry_other_errors {T : Type}
    (axios : list NetCall -> AxiosRequestConfig -> AxiosResult T)
    axios_post method path body params this w error :
  truthy (accessToken (config this)) = true ->
  truthy (instanceUrl (config this)) = true ->
  let request := requestConfig this method path body params in
  axios (calls w) request = Rejected error ->
  isUnauthorized error = false ->
  makeRequest axios axios_post method path body params this w
  = (Throw (handleRequestError error), this, issue (AxiosCall request) w).
Proof. apply makeRequest_rejected_other. Qed.

Lemma makeRequest_does_not_retry_other_errors_witness :
  let axios :=
    Scenario.scripted (T := string) [Scenario.unreachable; Scenario.ok "late"] in
  let axios_post :=
    Scenario.scriptedPost [Scenario.ok (Scenario.grant "new-token" None)] in
  makeRequest axios axios_post GET "/sobjects" None None
    Scenario.expiredClient Scenario.quiet
  = (Throw (JsError "Network error: Unable to reach Salesforce API"),
     Scenario.expiredClient,
     issue (AxiosCall (requestConfig Scenario.expiredClient GET "/sobjects" None None))
       Scenario.quiet).
Proof.
  apply (makeRequest_does_not_retry_other_errors
           (Scenario.scripted (T := string) [Scenario.unreachable; Scenario.ok "late"])
           (Scenario.scriptedPost [Scenario.ok (Scenario.grant "new-token" None)])
           GET "/sobjects" None None Scenario.expiredClient Scenario.quiet
           (JsAxiosError {| ae_message := "Network Error";
                            response := None;
                            request := true |}));
    reflexivity.
Defined.

(** X10. What any call of [makeRequest] can do, whatever the service
    answers: it adds at most two requests to the data endpoints and at
    most one post to the token endpoint, never a credential exchange,
    and it changes neither the metadata cache nor the credentials in
    the configuration. *)
Theorem makeRequest_footprint {T : Type}
    (axios : list NetCall -> AxiosRequestConfig -> AxiosResult T)
    axios_post method path body params this w :
  let result := makeRequest axios axios_post method path body params this w in
  sobjectsCache result.1.2 = sobjectsCache this
  /\ credentials (config result.1.2) = credentials (config this)
  /\ exists extra,
       calls result.2 = calls w ++ extra
       /\ forallb (fun c => negb (isExchange c)) extra = true
       /\ List.length (dataCalls extra) <= 2
       /\ List.length (tokenPosts extra) <= 1.
Proof.
  intros result. subst result.
  destruct (makeRequest _ _ _ _ _ _ _ _) as [[r this'] w'] eqn:E.
  pose proof (makeRequest_frame _ _ _ _ _ _ _ _ _ _ _ E) as (Hcache & Hcred & _).
  cbn [fst snd]. split; [done|]. split; [done|].
  rewrite makeRequest_eq in E.
  destruct (_ || _).
  { injection E as <- <- <-. exists []. rewrite app_nil_r. cbn. repeat split; lia. }
  cbv zeta in E. set (request := requestConfig _ _ _ _ _) in E.
  destruct (axios (calls w) request) as [a|e].
  { injection E as <- <- <-. exists [AxiosCall request]. cbn. repeat split; lia. }
  destruct (isUnauthorized e).
  2:{ injection E as <- <- <-. exists [AxiosCall request]. cbn. repeat split; lia. }
  destruct (tryTokenRefresh _ _ _) as [[ok this1] w1] eqn:Er.
  apply tryTokenRefresh_calls in Er as [_ Er]. rewrite calls_issue in Er.
  destruct ok; injection E as <- <- <-; rewrite ?calls_issue;
    destruct Er as [[_ ->]|(a & _ & ->)]; rewrite <- ?app_assoc;
    (eexists; split; [reflexivity|cbn; repeat split; lia]).
Qed.

(** X11. The pass-through calls have no renewal: when the answer to
    [toolingExecute] or [apexExecute] is a failure, a 401 included,
    the error reaches the caller as it was thrown, exactly one
    request has been sent, nothing went to the token endpoint and the
    client is as before. *)
Theorem pass_through_never_renews {T : Type}
    (axios : list NetCall -> AxiosRequestConfig -> AxiosResult T)
    action method body this w :
  truthy (instanceUrl (config this)) = true ->
  (forall error,
      axios (calls w) (toolingRequest this action method body) = Rejected error ->
      toolingExecute axios action method body this w
      = (Throw error, this,
         issue (AxiosCall (toolingRequest this action method body)) w))
  /\ (forall error,
      axios (calls w) (apexRequest this action method body) = Rejected error ->
      apexExecute axios action method body this w
      = (Throw error, this,
         issue (AxiosCall (apexRequest this action method body)) w))
  /\ (toolingExecute axios action method body this w).1.2 = this
  /\ (apexExecute axios action method body this w).1.2 = this
  /\ tokenPosts (calls (toolingExecute axios action method body this w).2)
     = tokenPosts (calls w)
  /\ tokenPosts (calls (apexExecute axios action method body this w).2)
     = tokenPosts (calls w).
Proof.
  intros Hi.
  assert (Ht : toolingExecute axios action method body this w
    = (await (axios (calls w) (toolingRequest this action method body)), this,
       issue (AxiosCall (toolingRequest this action method body)) w)).
  { unfold toolingExecute, toolingRequest. rewrite Hi. cbn [negb]. cbv zeta.
    by destruct (axios _ _). }
  assert (Hx : apexExecute axios action method body this w
    = (await (axios (calls w) (apexRequest this action method body)), this,
       issue (AxiosCall (apexRequest this action method body)) w)).
  { clear Ht. unfold apexExecute. rewrite Hi. cbn [negb]. cbv zeta.
    fold (apexRequest this action method body).
    by destruct (axios (calls w) (apexRequest this action method body)). }
  rewrite Ht, Hx. cbn [fst snd].
  split; [by intros error ->|]. split; [by intros error ->|].
  split; [done|]. split; [done|].
  unfold tokenPosts. rewrite !calls_issue, !omap_app. cbn.
  by rewrite !app_nil_r.
Qed.

Lemma pass_through_never_renews_witness :
  let axios := Scenario.scripted (T := string) [Scenario.unauthorized] in
  let result := toolingExecute axios "query" GET None Scenario.expiredClient
                  Scenario.quiet in
  (exists error, result.1.1 = Throw error /\ isUnauthorized error = true)
  /\ result.1.2 = Scenario.expiredClient
  /\ tokenPosts (calls result.2) = [].
Proof.
  intros axios result.
  destruct (pass_through_never_renews axios "query" GET None
              Scenario.expiredClient Scenario.quiet eq_refl)
    as (Hraw & _ & Hthis & _ & Hposts & _).
  fold result in Hthis, Hposts.
  split; [|split; [exact Hthis|exact Hposts]].
  eexists. split.
  - unfold result. rewrite (Hraw _ eq_refl). reflexivity.
  - reflexivity.
Defined.

(** X12. [apexExecute] supplies the leading slash of the action when
    it is missing: an action written with or without it gives the
    same call. *)
Theorem apexExecute_adds_leading_slash {T : Type}
    (axios : list NetCall -> AxiosRequestConfig -> AxiosResult T)
    action method body this w :
  startsWith "/" action = false ->
  apexExecute axios ("/" +:+ action) method body this w
  = apexExecute axios action method body this w.
Proof.
  intros H. unfold apexExecute. by rewrite H, startsWith_slash_cons.
Qed.

Lemma apexExecute_adds_leading_slash_witness :
  apexExecute (Scenario.scripted [Scenario.ok "answer"]) "/MyApexClass" GET None
    (new Scenario.tokenConfig) Scenario.quiet
  = apexExecute (Scenario.scripted [Scenario.ok "answer"]) "MyApexClass" GET None
      (new Scenario.tokenConfig) Scenario.quiet.
Proof.
  apply (apexExecute_adds_leading_slash
           (Scenario.scripted [Scenario.ok "answer"]) "MyApexClass" GET None
           (new Scenario.tokenConfig) Scenario.quiet).
  reflexivity.
Defined.

(** *** Queries, continued *)

Lemma prefix_append s rest : String.prefix s (s +:+ rest) = true.
Proof.
  induction s as [|a s IH]; [by destruct rest|].
  change (String a s +:+ rest) with (String a (s +:+ rest)).
  cbn [String.prefix]. by destruct (ascii_dec a a).
Qed.

Lemma index_prefix a s rest :
  String.index 0 (String a s) (String a s +:+ rest) = Some 0.
Proof.
  change (String a s +:+ rest) with (String a (s +:+ rest)).
  cbn [String.index].
  change (String a (s +:+ rest)) with (String a s +:+ rest).
  by rewrite prefix_append.
Qed.

Lemma substring_all s : String.substring 0 (String.length s) s = s.
Proof. induction s as [|c s IH]; [reflexivity|]. cbn. by rewrite IH. Qed.

Lemma substring_skip s rest n :
  String.substring (String.length s) n (s +:+ rest) = String.substring 0 n rest.
Proof.
  induction s as [|a s IH]; [reflexivity|].
  change (String a s +:+ rest) with (String a (s +:+ rest)). cbn. apply IH.
Qed.

Lemma length_append s rest :
  String.length (s +:+ rest) = String.length s + String.length rest.
Proof.
  induction s as [|a s IH]; [reflexivity|].
  change (String a s +:+ rest) with (String a (s +:+ rest)). cbn. by rewrite IH.
Qed.

(** [replace] on a string that starts with the pattern. *)
Lemma replace_prefix a s rep rest :
  replace (String a s) rep (String a s +:+ rest) = rep +:+ rest.
Proof.
  unfold replace. rewrite index_prefix, length_append.
  change (0 + String.length (String a s)) with (String.length (String a s)).
  replace (String.length (String a s) + String.length rest
           - String.length (String a s)) with (String.length rest) by lia.
  rewrite substring_skip, substring_all.
  change (String a s +:+ rest) with (String a (s +:+ rest)). reflexivity.
Qed.

(** X13. The version prefix that [queryAll] strips from a locator is
    the one [getApiUrl] puts back: for a locator made of the prefix
    and a path, the next request goes to the instance URL (without
    its trailing slash) followed by the locator as the service gave
    it. *)
Theorem locatorRequest_keeps_the_locator {R : Type} this
    (p : SalesforceQueryResult R) rest :
  nextRecordsUrl p = Some ("/services/data/v58.0" +:+ rest) ->
  startsWith "/" rest = true ->
  url (locatorRequest this p)
  = stripTrailingSlash (template (instanceUrl (config this)))
    +:+ template (nextRecordsUrl p).
Proof.
  intros Hnext Hrest. unfold locatorRequest, requestConfig, getApiUrl.
  rewrite Hnext. cbn [url template]. rewrite replace_prefix.
  change ("" +:+ rest) with rest. by rewrite Hrest.
Qed.

Lemma locatorRequest_keeps_the_locator_witness :
  url (locatorRequest (new Scenario.tokenConfig) Scenario.page1)
  = "https://test.salesforce.com" +:+ "/services/data/v58.0/query/01g-2000".
Proof.
  apply (locatorRequest_keeps_the_locator (new Scenario.tokenConfig)
           Scenario.page1 "/query/01g-2000"); reflexivity.
Defined.

Lemma last_cons_any_default {A : Type} (l : list A) a d d' :
  List.last (a :: l) d = List.last (a :: l) d'.
Proof. revert a. induction l as [|b l IH]; intros a; [reflexivity|]. apply IH. Qed.

(** A request of the drain fails with something other than a 401
    after the pages [more] have been added to [result]. *)
Lemma queryAllLoop_fails {R : Type}
    (axios : list NetCall -> AxiosRequestConfig -> AxiosResult (SalesforceQueryResult R))
    axios_post this error more :
  truthy (accessToken (config this)) = true ->
  truthy (instanceUrl (config this)) = true ->
  isUnauthorized error = false ->
  forall (result : SalesforceQueryResult R) w fuel,
  hasMore result = true ->
  Forall (fun p => hasMore p = true) more ->
  serves axios (calls w)
    (take (List.length more) (map (locatorRequest this) (result :: more))) more ->
  axios (calls w ++ map AxiosCall
                      (take (List.length more)
                         (map (locatorRequest this) (result :: more))))
    (locatorRequest this (List.last more result)) = Rejected error ->
  List.length more < fuel ->
  queryAllLoop axios axios_post fuel result this w
  = Some (Throw (handleRequestError error), this,
          issueAll (map (locatorRequest this) (result :: more)) w).
Proof.
  intros Ha Hi Hother.
  induction more as [|p more IH];
    intros result w fuel Hmore Hall Hserves Hfail Hfuel;
    (destruct fuel as [|fuel]; [cbn in Hfuel; lia|]).
  - cbn in Hfail. rewrite app_nil_r in Hfail.
    cbn [queryAllLoop]. fold (hasMore result). rewrite Hmore.
    unfold locatorRequest in Hfail.
    by rewrite (makeRequest_rejected_other _ _ _ _ _ _ _ _ _
                  Ha Hi Hfail Hother).
  - destruct Hserves as [[st Hanswer] Hserves].
    apply Forall_cons in Hall as [Hp Hall].
    cbn [queryAllLoop]. fold (hasMore result). rewrite Hmore.
    unfold locatorRequest in Hanswer.
    rewrite (makeRequest_resolved _ _ _ _ _ _ _ _ _ _ Ha Hi Hanswer).
    rewrite (IH {| totalSize := totalSize p;
                   done := done p;
                   records := records result ++ records p;
                   nextRecordsUrl := nextRecordsUrl p |});
      [done|exact Hp|exact Hall| | |cbn in Hfuel; lia].
    + rewrite calls_issue. exact Hserves.
    + rewrite calls_issue, <- app_assoc.
      destruct more as [|p' more']; [exact Hfail|].
      rewrite (last_cons_any_default more' p' _ result). exact Hfail.
Qed.

(** X14. A failure in the middle of a drain loses the pages already
    fetched: when the pages of [fetched] arrive, each naming a
    successor, and the request for the page after them fails with
    something other than a 401, [queryAll] throws the translated
    error, returns no record at all, and has sent one request per
    page it asked for. *)
Theorem queryAll_discards_pages_on_failure {R : Type}
    (axios : list NetCall -> AxiosRequestConfig -> AxiosResult (SalesforceQueryResult R))
    axios_post q this w first (more : list (SalesforceQueryResult R)) error fuel :
  truthy (accessToken (config this)) = true ->
  truthy (instanceUrl (config this)) = true ->
  let fetched := first :: more in
  let requests :=
    requestConfig this GET "/query" None (Some [("q", SString q)])
    :: map (locatorRequest this) fetched in
  Forall (fun p => done p = false /\ truthy (nextRecordsUrl p) = true) fetched ->
  serves axios (calls w) (take (List.length fetched) requests) fetched ->
  axios (calls w ++ map AxiosCall (take (List.length fetched) requests))
    (locatorRequest this (List.last more first)) = Rejected error ->
  isUnauthorized error = false ->
  List.length fetched <= fuel ->
  queryAll axios axios_post fuel q this w
  = Some (Throw (handleRequestError error), this, issueAll requests w).
Proof.
  intros Ha Hi fetched requests Hall Hserves Hfail Hother Hfuel.
  assert (Hall' : Forall (fun p => hasMore p = true) fetched).
  { eapply Forall_impl; [exact Hall|]. intros p [Hd Hn]. unfold hasMore.
    by rewrite Hd, Hn. }
  apply Forall_cons in Hall' as [Hfirst Hmore].
  subst fetched requests. cbn [List.length take map] in Hserves, Hfail.
  destruct Hserves as [[st Hanswer] Hserves].
  unfold queryAll, query.
  rewrite (makeRequest_resolved _ _ _ _ _ _ _ _ _ _ Ha Hi Hanswer).
  rewrite (queryAllLoop_fails axios axios_post this error more Ha Hi Hother first);
    [done|exact Hfirst|exact Hmore| | |cbn in Hfuel; lia].
  - rewrite calls_issue. exact Hserves.
  - rewrite calls_issue, <- app_assoc. exact Hfail.
Qed.

Lemma queryAll_discards_pages_on_failure_witness :
  let axios :=
    Scenario.scripted [Scenario.ok Scenario.page1; Scenario.ok Scenario.page2] in
  let result :=
    queryAll axios (Scenario.scriptedPost []) 2 "SELECT Id FROM Account"
      (new Scenario.tokenConfig) Scenario.quiet in
  exists w',
    result
    = Some (Throw (JsError "Network error: Unable to reach Salesforce API"),
            new Scenario.tokenConfig, w')
    /\ List.length (calls w') = 3.
Proof.
  intros axios result. eexists. split.
  - apply (queryAll_discards_pages_on_failure axios (Scenario.scriptedPost [])
             "SELECT Id FROM Account" (new Scenario.tokenConfig) Scenario.quiet
             Scenario.page1 [Scenario.page2]
             (JsAxiosError {| ae_message := "Network Error";
                              response := None;
                              request := true |}) 2).
    + reflexivity.
    + reflexivity.
    + repeat constructor.
    + cbn. repeat split; eexists; reflexivity.
    + reflexivity.
    + reflexivity.
    + cbn. lia.
  - reflexivity.
Defined.

(** X15. A search whose answer has no [searchRecords] is not a
    failure: [search] returns the records of the answer when there
    are some and the empty list otherwise, after one request. *)
Theorem search_without_records_is_empty {R : Type}
    (axios : list NetCall -> AxiosRequestConfig -> AxiosResult (option (list R)))
    axios_post searchQuery this w st searchRecords :
  truthy (accessToken (config this)) = true ->
  truthy (instanceUrl (config this)) = true ->
  let request :=
    requestConfig this GET "/search" None (Some [("q", SString searchQuery)]) in
  axios (calls w) request = Resolved {| status := st; data := searchRecords |} ->
  search axios axios_post searchQuery this w
  = (Return (match searchRecords with Some l => l | None => [] end), this,
     issue (AxiosCall request) w).
Proof.
  intros Ha Hi request Hanswer. unfold search.
  rewrite (makeRequest_resolved _ _ _ _ _ _ _ _ _ _ Ha Hi Hanswer).
  by destruct searchRecords.
Qed.

Lemma search_without_records_is_empty_witness :
  (search (Scenario.scripted (T := option (list string)) [Scenario.ok None])
     (Scenario.scriptedPost []) "FIND {x}" (new Scenario.tokenConfig)
     Scenario.quiet).1.1
  = Return [].
Proof.
  rewrite (search_without_records_is_empty
             (Scenario.scripted (T := option (list string)) [Scenario.ok None])
             (Scenario.scriptedPost []) "FIND {x}" (new Scenario.tokenConfig)
             Scenario.quiet 200 None eq_refl eq_refl eq_refl).
  reflexivity.
Defined.

(** *** The metadata cache, continued *)

(** X16. A description that could not be fetched is not cached: when
    the request of a first [getObjectFields] fails, the error reaches
    the caller and the name is still absent from the cache, so that
    the next call asks the service again. *)
Theorem getObjectFields_does_not_cache_failures
    axios axios_post objectName this w error this1 w1 :
  sobjectsCache this !! objectName = None ->
  makeRequest axios axios_post GET ("/sobjects/" +:+ objectName +:+ "/describe")
    None None this w = (Throw error, this1, w1) ->
  getObjectFields axios axios_post objectName this w = (Throw error, this1, w1)
  /\ sobjectsCache this1 !! objectName = None
  /\ forall axios' axios_post' w',
       getObjectFields axios' axios_post' objectName this1 w'
       = match makeRequest axios' axios_post' GET
                 ("/sobjects/" +:+ objectName +:+ "/describe") None None this1 w' with
         | (Return metadata, this2, w2) =>
             (Return (extractFields metadata),
              {| config := config this2;
                 authClient := authClient this2;
                 sobjectsCache :=
                   <[objectName := extractFields metadata]> (sobjectsCache this2) |},
              w2)
         | (Throw error', this2, w2) => (Throw error', this2, w2)
         end.
Proof.
  intros Hmiss Hfetch.
  pose proof (makeRequest_frame _ _ _ _ _ _ _ _ _ _ _ Hfetch) as (Hcache & _).
  assert (Hmiss1 : sobjectsCache this1 !! objectName = None) by by rewrite Hcache.
  split; [|split; [exact Hmiss1|]].
  - unfold getObjectFields. by rewrite Hmiss, Hfetch.
  - intros axios' axios_post' w'. unfold getObjectFields. rewrite Hmiss1.
    by destruct (makeRequest _ _ _ _ _ _ _ _) as [[[m|e] this2] w2].
Qed.

Lemma getObjectFields_does_not_cache_failures_witness :
  let axios :=
    Scenario.scripted [Scenario.unreachable; Scenario.ok Scenario.accountMetadata] in
  let first :=
    getObjectFields axios (Scenario.scriptedPost []) "Account"
      (new Scenario.tokenConfig) Scenario.quiet in
  let second :=
    getObjectFields axios (Scenario.scriptedPost []) "Account" first.1.2 first.2 in
  first.1.1 = Throw (JsError "Network error: Unable to reach Salesforce API")
  /\ sobjectsCache first.1.2 !! "Account" = None
  /\ second.1.1 = Return (fields Scenario.accountMetadata)
  /\ List.length (calls second.2) = 2.
Proof.
  intros axios first second.
  destruct (getObjectFields_does_not_cache_failures axios (Scenario.scriptedPost [])
              "Account" (new Scenario.tokenConfig) Scenario.quiet
              (JsError "Network error: Unable to reach Salesforce API")
              (new Scenario.tokenConfig)
              (issue (AxiosCall (requestConfig (new Scenario.tokenConfig) GET
                                   "/sobjects/Account/describe" None None))
                 Scenario.quiet)
              (lookup_empty _) eq_refl)
    as (Hfirst & Hmiss & Hnext).
  fold first in Hfirst.
  split; [by rewrite Hfirst|]. split; [by rewrite Hfirst|].
  unfold second. rewrite Hfirst. cbn [fst snd]. rewrite Hnext.
  split; reflexivity.
Defined.

(** X17. [getObjectFields] touches the cache at its own key only: the
    entry of every other name, names that differ by case included, is
    the same before and after the call. *)
Theorem getObjectFields_keeps_other_entries
    axios axios_post (objectName other : string) this w :
  other <> objectName ->
  sobjectsCache (getObjectFields axios axios_post objectName this w).1.2 !! other
  = sobjectsCache this !! other.
Proof.
  intros Hother. unfold getObjectFields.
  destruct (sobjectsCache this !! objectName); [done|].
  destruct (makeRequest _ _ _ _ _ _ _ _) as [[r this1] w1] eqn:E.
  apply makeRequest_frame in E as [Hcache _].
  destruct r; cbn; rewrite ?Hcache; [|done].
  by apply lookup_insert_ne.
Qed.

Lemma getObjectFields_keeps_other_entries_witness :
  sobjectsCache
    (getObjectFields (Scenario.scripted [Scenario.ok Scenario.accountMetadata])
       (Scenario.scriptedPost []) "Account" (new Scenario.tokenConfig)
       Scenario.quiet).1.2 !! "account"
  = None.
Proof.
  rewrite (getObjectFields_keeps_other_entries
             (Scenario.scripted [Scenario.ok Scenario.accountMetadata])
             (Scenario.scriptedPost []) "Account" "account"
             (new Scenario.tokenConfig) Scenario.quiet); [|discriminate].
  apply lookup_empty.
Defined.

(** *** The credential exchanger, continued *)

(** X18. [authenticate] succeeds exactly when the token endpoint
    answers with status 200. Then the exchanger holds the session of
    the answer, and its refresh token is that of the answer, so that
    a token held before is dropped when the answer has none. In every
    other case (another status, a rejected request) the exchanger is
    left as it was. *)
Theorem authenticate_commits_only_on_200
    axios_post this username password securityToken sandbox w :
  let answer :=
    axios_post (calls w) (getOAuthTokenUrl sandbox)
      (exchangeForm this username password securityToken)
      SalesforcePasswordAuth.formHeaders in
  let result :=
    SalesforcePasswordAuth.authenticate axios_post this username password
      securityToken sandbox w in
  result.1.1 = granted answer
  /\ match answer with
     | Resolved r =>
         if (status r =? 200)%Z then
           result.1.2
           = {| SalesforcePasswordAuth.clientId := SalesforcePasswordAuth.clientId this;
                SalesforcePasswordAuth.clientSecret :=
                  SalesforcePasswordAuth.clientSecret this;
                SalesforcePasswordAuth.accessToken := Some (access_token (data r));
                SalesforcePasswordAuth.instanceUrl := Some (instance_url (data r));
                SalesforcePasswordAuth.refreshToken := refresh_token (data r) |}
         else result.1.2 = this
     | Rejected _ => result.1.2 = this
     end.
Proof.
  intros answer result. subst result.
  unfold SalesforcePasswordAuth.authenticate. rewrite calls_debugLog.
  fold (exchangeForm this username password securityToken). fold answer.
  destruct answer as [r|e]; [|done].
  cbn [granted]. by destruct (status r =? 200)%Z.
Qed.

(** X19. [refreshAccessToken] succeeds exactly when a refresh token is
    held and the token endpoint answers with status 200; whenever it
    fails, the exchanger is left as it was: the old access token, the
    instance URL and the refresh token are all kept. *)
Theorem refreshAccessToken_failure_keeps_session axios_post this sandbox w :
  let answer :=
    axios_post (calls w) (getOAuthTokenUrl sandbox) (refreshForm this)
      SalesforcePasswordAuth.formHeaders in
  let result := SalesforcePasswordAuth.refreshAccessToken axios_post this sandbox w in
  result.1.1 = truthy (SalesforcePasswordAuth.refreshToken this) && granted answer
  /\ (result.1.1 = false -> result.1.2 = this).
Proof.
  intros answer result. subst result.
  unfold SalesforcePasswordAuth.refreshAccessToken.
  destruct (truthy (SalesforcePasswordAuth.refreshToken this)); cbn [negb andb];
    [|done].
  rewrite calls_debugLog. fold (refreshForm this). fold answer.
  destruct answer as [r|e]; [|done].
  cbn [granted]. by destruct (status r =? 200)%Z.
Qed.

Lemma refreshAccessToken_failure_keeps_session_witness :
  let result :=
    SalesforcePasswordAuth.refreshAccessToken
      (Scenario.scriptedPost
         [Resolved {| status := 201; data := Scenario.grant "new-token" None |}])
      Scenario.renewable false Scenario.quiet in
  result.1.1 = false /\ result.1.2 = Scenario.renewable.
Proof.
  intros result.
  destruct (refreshAccessToken_failure_keeps_session
              (Scenario.scriptedPost
                 [Resolved {| status := 201; data := Scenario.grant "new-token" None |}])
              Scenario.renewable false Scenario.quiet) as [Hok Hkept].
  fold result in Hok, Hkept. split; [exact Hok|]. apply Hkept. exact Hok.
Defined.


(** *** The tool handlers *)

Section ToolHandlers.

Variable env : gmap string string.
Context {T : Type}.
Variable axios : list NetCall -> AxiosRequestConfig -> AxiosResult T.
Variable axiosDescribe :
  list NetCall -> AxiosRequestConfig -> AxiosResult SalesforceObjectMetadata.
Variable axios_post :
  list NetCall -> string -> URLSearchParams -> Headers ->
  AxiosResult SalesforceAuthResponse.
Variable stringify : T -> string.
Variable stringifyFields : list SalesforceField -> string.

(** [handleAuthenticatePassword] once its arguments and the
    environment have passed the checks: the second check of the
    client identity cannot fail. *)
Lemma handleAuthenticatePassword_eq args this w c :
  truthy (SalesforceMCPServer.a_username args) = true ->
  truthy (SalesforceMCPServer.a_password args) = true ->
  ConfigManager.getSalesforceConfig env = inr c ->
  SalesforceMCPServer.handleAuthenticatePassword env axios axios_post args this w
  = match connect axios axios_post (passwordClient c args) w with
    | (Return true, client, w') =>
        (Return (SalesforceMCPServer.textResult
           ("✅ Password authentication successful!" +:+ newline
            +:+ "Connected to: " +:+ templateNull (getInstanceUrl client) +:+ newline
            +:+ "You can now use other Salesforce tools.")),
         {| SalesforceMCPServer.salesforceClient := client |}, w')
    | (Return false, client, w') =>
        (Throw (JsError
           "Password authentication failed. Please check your credentials and try again."),
         {| SalesforceMCPServer.salesforceClient := client |}, w')
    | (Throw error, client, w') =>
        (Throw error, {| SalesforceMCPServer.salesforceClient := client |}, w')
    end.
Proof.
  intros Hu Hp Hc. unfold SalesforceMCPServer.handleAuthenticatePassword.
  rewrite Hu, Hp, Hc. cbn [negb orb].
  apply getSalesforceConfig_identity in Hc as [-> ->]. cbn [negb orb].
  fold (passwordClient c args).
  by destruct (connect _ _ _ _) as [[[[]|e] client] w'].
Qed.

Lemma connect_credentials this w :
  credentials (config (connect axios axios_post this w).1.2)
  = credentials (config this).
Proof.
  rewrite connect_eq. destruct (_ && _).
  - destruct (makeRequest _ _ _ _ _ _ _ _) as [[r this'] w'] eqn:E.
    apply makeRequest_frame in E as (_ & Hcred & _).
    destruct r as [d|error]; [done|].
    destruct (password_strategy_spec axios_post this'
                (errorLog [Lit "❌ Access token is invalid or expired"; Obj error] w'))
      as (this2 & w2 & -> & _ & Hcred2 & _). cbn [fst snd]. congruence.
  - destruct (password_strategy_spec axios_post this w)
      as (this2 & w2 & -> & _ & Hcred2 & _). done.
Qed.

Lemma connect_passwordClient args w c :
  truthy (accessToken c) && truthy (instanceUrl c) = false ->
  connect axios axios_post (passwordClient c args) w
  = orElse (tryUsernamePasswordAuth axios_post) handleAuthFailure
      (passwordClient c args) w.
Proof.
  intros Htok. rewrite connect_eq.
  change (accessToken (config (passwordClient c args))) with (accessToken c).
  change (instanceUrl (config (passwordClient c args))) with (instanceUrl c).
  by rewrite Htok.
Qed.

(** X20. The handlers behind [ensureAuthenticated] refuse to run on a
    client without a session: each one throws the "Please
    authenticate first" error, sends nothing and leaves the server as
    it is. *)
Theorem handlers_require_authentication
    this w fieldsArgs updateArgs deleteArgs executeArgs :
  isAuthenticated (SalesforceMCPServer.salesforceClient this) = false ->
  let refused {A} : Completion A * SalesforceMCPServer.t * World :=
    (Throw SalesforceMCPServer.authenticateFirst, this, w) in
  SalesforceMCPServer.handleGetObjectFields axiosDescribe axios_post
    stringifyFields fieldsArgs this w = refused
  /\ SalesforceMCPServer.handleUpdateRecord axios axios_post updateArgs this w
     = refused
  /\ SalesforceMCPServer.handleDeleteRecord axios axios_post deleteArgs this w
     = refused
  /\ SalesforceMCPServer.handleToolingExecute axios stringify executeArgs this w
     = refused
  /\ SalesforceMCPServer.handleApexExecute axios stringify executeArgs this w
     = refused.
Proof.
  intros H refused. subst refused.
  unfold SalesforceMCPServer.handleGetObjectFields,
    SalesforceMCPServer.handleUpdateRecord, SalesforceMCPServer.handleDeleteRecord,
    SalesforceMCPServer.handleToolingExecute, SalesforceMCPServer.handleApexExecute,
    SalesforceMCPServer.ensureAuthenticated.
  rewrite H. by repeat split.
Qed.

(** X21. [handleAuthenticatePassword] replaces the client of the
    server: once its arguments and the environment have passed the
    checks, and whether the connection then succeeds or not, the
    server holds a client built from the environment and the
    arguments, whose metadata cache is empty, whatever the previous
    client had cached. *)
Theorem handleAuthenticatePassword_replaces_the_client args this w c :
  truthy (SalesforceMCPServer.a_username args) = true ->
  truthy (SalesforceMCPServer.a_password args) = true ->
  ConfigManager.getSalesforceConfig env = inr c ->
  let client :=
    SalesforceMCPServer.salesforceClient
      (SalesforceMCPServer.handleAuthenticatePassword env axios axios_post
         args this w).1.2 in
  sobjectsCache client = ∅
  /\ credentials (config client) = credentials (config (passwordClient c args)).
Proof.
  intros Hu Hp Hc client. subst client.
  rewrite (handleAuthenticatePassword_eq _ _ _ _ Hu Hp Hc).
  pose proof (connect_credentials (passwordClient c args) w) as Hcred.
  destruct (connect _ _ _ _) as [[r client] w'] eqn:E.
  apply connect_cache in E. cbn [fst snd] in Hcred.
  by destruct r as [[]|e].
Qed.

(** X22. Without a token pair in the environment
    [handleAuthenticatePassword] sends exactly one call, the
    credential exchange, to the token URL chosen by its own [sandbox]
    argument, production when the argument is absent: the
    [SALESFORCE_SANDBOX] setting of the environment plays no part.
    The exchange carries the username and password of the arguments
    under the client identity of the environment. *)
Theorem handleAuthenticatePassword_targets_its_own_sandbox args this w c :
  truthy (SalesforceMCPServer.a_username args) = true ->
  truthy (SalesforceMCPServer.a_password args) = true ->
  ConfigManager.getSalesforceConfig env = inr c ->
  truthy (accessToken c) && truthy (instanceUrl c) = false ->
  calls (SalesforceMCPServer.handleAuthenticatePassword env axios axios_post
           args this w).2
  = calls w
    ++ [AxiosPost
          (getOAuthTokenUrl (default false (SalesforceMCPServer.a_sandbox args)))
          (exchangeForm
             (SalesforcePasswordAuth.new (clientId c) (clientSecret c))
             (template (SalesforceMCPServer.a_username args))
             (template (SalesforceMCPServer.a_password args))
             (default "" (SalesforceMCPServer.a_security_token args)))
          SalesforcePasswordAuth.formHeaders].
Proof.
  intros Hu Hp Hc Htok.
  rewrite (handleAuthenticatePassword_eq _ _ _ _ Hu Hp Hc).
  rewrite (connect_passwordClient _ _ _ Htok).
  destruct (password_strategy_spec axios_post (passwordClient c args) w)
    as (this2 & w2 & Heq & _ & _ & Hcalls & _).
  rewrite Heq.
  apply getSalesforceConfig_identity in Hc as [Hid Hsec].
  assert (Hcreds : hasCredentials (config (passwordClient c args)) = true).
  { unfold hasCredentials. cbn [passwordClient new config username password
                                clientId clientSecret].
    by rewrite Hu, Hp, Hid, Hsec. }
  rewrite Hcreds in Hcalls |- *.
  by destruct (granted _).
Qed.

(** X23. A failed [authenticate_password] ends the session the server
    had: without a token pair in the environment, when the exchange is
    not answered with a 200 the handler throws "Password
    authentication failed" and the server is left with a client that
    is not authenticated, whatever client it held before. *)
Theorem handleAuthenticatePassword_failure_logs_out args this w c :
  truthy (SalesforceMCPServer.a_username args) = true ->
  truthy (SalesforceMCPServer.a_password args) = true ->
  ConfigManager.getSalesforceConfig env = inr c ->
  truthy (accessToken c) && truthy (instanceUrl c) = false ->
  granted
    (axios_post (calls w)
       (getOAuthTokenUrl (default false (SalesforceMCPServer.a_sandbox args)))
       (exchangeForm
          (SalesforcePasswordAuth.new (clientId c) (clientSecret c))
          (template (SalesforceMCPServer.a_username args))
          (template (SalesforceMCPServer.a_password args))
          (default "" (SalesforceMCPServer.a_security_token args)))
       SalesforcePasswordAuth.formHeaders) = false ->
  let result :=
    SalesforceMCPServer.handleAuthenticatePassword env axios axios_post args this w in
  result.1.1
  = Throw (JsError
      "Password authentication failed. Please check your credentials and try again.")
  /\ isAuthenticated (SalesforceMCPServer.salesforceClient result.1.2) = false.
Proof.
  intros Hu Hp Hc Htok Hdenied result. subst result.
  rewrite (handleAuthenticatePassword_eq _ _ _ _ Hu Hp Hc).
  rewrite (connect_passwordClient _ _ _ Htok).
  destruct (password_strategy_spec axios_post (passwordClient c args) w)
    as (this2 & w2 & Heq & _ & _ & _ & Hb).
  change (granted _) with (granted
    (axios_post (calls w)
       (getOAuthTokenUrl (default false (SalesforceMCPServer.a_sandbox args)))
       (exchangeForm
          (SalesforcePasswordAuth.new (clientId c) (clientSecret c))
          (template (SalesforceMCPServer.a_username args))
          (template (SalesforceMCPServer.a_password args))
          (default "" (SalesforceMCPServer.a_security_token args)))
       SalesforcePasswordAuth.formHeaders)) in Heq, Hb.
  rewrite Hdenied, andb_false_r in Heq, Hb.
  rewrite Heq. cbn [fst snd].
  split; [done|].
  unfold isAuthenticated. cbn [SalesforceMCPServer.salesforceClient].
  rewrite Hb. exact Htok.
Qed.

End ToolHandlers.

Lemma handlers_require_authentication_witness :
  SalesforceMCPServer.handleGetObjectFields
    (Scenario.scripted [Scenario.ok Scenario.accountMetadata])
    (Scenario.scriptedPost []) ServerScenario.noFields
    {| SalesforceMCPServer.g_object_name := "Account" |}
    ServerScenario.coldServer Scenario.quiet
  = (Throw SalesforceMCPServer.authenticateFirst, ServerScenario.coldServer,
     Scenario.quiet).
Proof.
  apply (handlers_require_authentication
           (Scenario.scripted [Scenario.ok "never sent"])
           (Scenario.scripted [Scenario.ok Scenario.accountMetadata])
           (Scenario.scriptedPost []) ServerScenario.quote ServerScenario.noFields
           ServerScenario.coldServer Scenario.quiet
           {| SalesforceMCPServer.g_object_name := "Account" |}
           {| SalesforceMCPServer.u_object_name := "Account";
              SalesforceMCPServer.u_record_id := "001";
              SalesforceMCPServer.u_data := [] |}
           {| SalesforceMCPServer.d_object_name := "Account";
              SalesforceMCPServer.d_record_id := "001" |}
           {| SalesforceMCPServer.x_action := "query";
              SalesforceMCPServer.x_method := None;
              SalesforceMCPServer.x_data := None |}).
  reflexivity.
Defined.

Lemma handleAuthenticatePassword_replaces_the_client_witness :
  let after :=
    SalesforceMCPServer.salesforceClient
      (SalesforceMCPServer.handleAuthenticatePassword ServerScenario.bareEnv
         (Scenario.scripted (T := string) [])
         (Scenario.scriptedPost [Scenario.ok (Scenario.grant "fresh-token" None)])
         ServerScenario.passwordArgs ServerScenario.warmServer Scenario.quiet).1.2 in
  sobjectsCache ServerScenario.warmClient !! "Account"
  = Some (fields Scenario.accountMetadata)
  /\ sobjectsCache after !! "Account" = None.
Proof.
  intros after. split; [apply lookup_singleton_eq|].
  destruct (handleAuthenticatePassword_replaces_the_client ServerScenario.bareEnv
              (Scenario.scripted (T := string) [])
              (Scenario.scriptedPost [Scenario.ok (Scenario.grant "fresh-token" None)])
              ServerScenario.passwordArgs ServerScenario.warmServer Scenario.quiet
              Scenario.bareConfig eq_refl eq_refl)
    as [Hcache _].
  { vm_compute. reflexivity. }
  fold after in Hcache. rewrite Hcache. apply lookup_empty.
Defined.

Lemma handleAuthenticatePassword_targets_its_own_sandbox_witness :
  exists c form,
    ConfigManager.getSalesforceConfig ServerScenario.sandboxEnv = inr c
    /\ sandbox c = true
    /\ calls (SalesforceMCPServer.handleAuthenticatePassword ServerScenario.sandboxEnv
                (Scenario.scripted (T := string) []) (Scenario.scriptedPost [])
                ServerScenario.passwordArgs ServerScenario.coldServer
                Scenario.quiet).2
       = [AxiosPost "https://login.salesforce.com/services/oauth2/token" form
            SalesforcePasswordAuth.formHeaders].
Proof.
  assert (Hc : ConfigManager.getSalesforceConfig ServerScenario.sandboxEnv
               = inr {| clientId := "id1";
                        clientSecret := "sec1";
                        username := Some "u@x.com";
                        password := Some "p";
                        securityToken := None;
                        sandbox := true;
                        accessToken := None;
                        instanceUrl := None |})
    by (vm_compute; reflexivity).
  eexists _, _. split; [exact Hc|]. split; [reflexivity|].
  apply (handleAuthenticatePassword_targets_its_own_sandbox
           ServerScenario.sandboxEnv (Scenario.scripted (T := string) [])
           (Scenario.scriptedPost []) ServerScenario.passwordArgs
           ServerScenario.coldServer Scenario.quiet _ eq_refl eq_refl Hc eq_refl).
Defined.

Lemma handleAuthenticatePassword_failure_logs_out_witness :
  let result :=
    SalesforceMCPServer.handleAuthenticatePassword ServerScenario.bareEnv
      (Scenario.scripted (T := string) []) (Scenario.scriptedPost [])
      ServerScenario.passwordArgs ServerScenario.warmServer Scenario.quiet in
  isAuthenticated (SalesforceMCPServer.salesforceClient ServerScenario.warmServer)
  = true
  /\ result.1.1
     = Throw (JsError
         "Password authentication failed. Please check your credentials and try again.")
  /\ isAuthenticated (SalesforceMCPServer.salesforceClient result.1.2) = false.
Proof.
  intros result. split; [reflexivity|].
  apply (handleAuthenticatePassword_failure_logs_out ServerScenario.bareEnv
           (Scenario.scripted (T := string) []) (Scenario.scriptedPost [])
           ServerScenario.passwordArgs ServerScenario.warmServer Scenario.quiet
           Scenario.bareConfig eq_refl eq_refl);
    [vm_compute; reflexivity|reflexivity|reflexivity].
Defined.

(** X24. Through the handlers every pass-through request carries a
    real token: [handleToolingExecute] and [handleApexExecute] either
    send nothing or send one request whose bearer header is built
    from the non-empty access token of the client. *)
Theorem pass_through_handlers_send_a_token {T : Type}
    (axios : list NetCall -> AxiosRequestConfig -> AxiosResult T)
    stringify args this w :
  let sends (w' : World) :=
    calls w' = calls w
    \/ exists token request,
         accessToken (config (SalesforceMCPServer.salesforceClient this))
         = Some token
         /\ token <> ""
         /\ calls w' = calls w ++ [AxiosCall request]
         /\ Authorization (headers request) = Some ("Bearer " +:+ token) in
  sends (SalesforceMCPServer.handleToolingExecute axios stringify args this w).2
  /\ sends (SalesforceMCPServer.handleApexExecute axios stringify args this w).2.
Proof.
  intros sends. subst sends.
  unfold SalesforceMCPServer.handleToolingExecute,
    SalesforceMCPServer.handleApexExecute,
    SalesforceMCPServer.ensureAuthenticated, isAuthenticated.
  destruct (truthy (accessToken _)) eqn:Ha; cbn [andb negb]; [|by split; left].
  destruct (truthy (instanceUrl _)) eqn:Hi; cbn [andb negb]; [|by split; left].
  apply truthy_Some in Ha as (token & Ha & Hne).
  unfold toolingExecute, apexExecute. rewrite Hi. cbn [negb]. cbv zeta.
  split; right; exists token; eexists;
    (split; [exact Ha|]; split; [exact Hne|]; split;
     [destruct (axios _ _); cbn [snd]; apply calls_issue
     |cbn; by rewrite Ha]).
Qed.

(** X25. The update and delete handlers never report a failure in
    their text: whenever one of them returns, its text ends in
    "Success"; a request that failed is reported by the thrown error
    instead. *)
Theorem update_and_delete_handlers_report_success_only {T : Type}
    (axios : list NetCall -> AxiosRequestConfig -> AxiosResult T)
    axios_post updateArgs deleteArgs this w :
  match (SalesforceMCPServer.handleUpdateRecord axios axios_post
           updateArgs this w).1.1 with
  | Return r =>
      r = SalesforceMCPServer.textResult
            ("Update " +:+ SalesforceMCPServer.u_object_name updateArgs
             +:+ " Record Result: Success")
  | Throw _ => True
  end
  /\ match (SalesforceMCPServer.handleDeleteRecord axios axios_post
              deleteArgs this w).1.1 with
     | Return r =>
         r = SalesforceMCPServer.textResult
               ("Delete " +:+ SalesforceMCPServer.d_object_name deleteArgs
                +:+ " Record Result: Success")
     | Throw _ => True
     end.
Proof.
  unfold SalesforceMCPServer.handleUpdateRecord,
    SalesforceMCPServer.handleDeleteRecord, updateRecord, deleteRecord.
  destruct (SalesforceMCPServer.ensureAuthenticated this); [done|].
  split.
  - by destruct (makeRequest _ _ PATCH _ _ _ _ _) as [[[d|e] c] w'].
  - by destruct (makeRequest _ _ DELETE _ _ _ _ _) as [[[d|e] c] w'].
Qed.

(** *** The configuration report *)

Lemma console_debugLog m w :
  console (debugLog m w)
  = console w ++ (if debugEnabled w then [console_log [Lit m]] else []).
Proof.
  unfold debugLog. destruct (debugEnabled w); [reflexivity|].
  symmetry. apply app_nil_r.
Qed.

Lemma debugEnabled_debugLog m w : debugEnabled (debugLog m w) = debugEnabled w.
Proof. unfold debugLog. by destruct (debugEnabled w) eqn:E. Qed.

(** X26. [logConfigStatus] never reports a missing client id or
    client secret (the logging helpers read the same environment, so
    the flag of the world is the debug request). Without the debug
    request it does nothing. With it, a missing identity makes it throw the error
    of [getSalesforceConfig] before a line is written; otherwise it
    writes its nine lines, and the two lines of the identity always
    read "Set". *)
Theorem logConfigStatus_never_reports_missing_identity
    (env : gmap string string) w :
  debugEnabled w = ConfigManager.debugRequested env ->
  if ConfigManager.debugRequested env then
    match ConfigManager.getSalesforceConfig env with
    | inl error => ConfigManager.logConfigStatus env w = (Some error, w)
    | inr c =>
        exists w',
          ConfigManager.logConfigStatus env w = (None, w')
          /\ console w'
             = console w
               ++ [console_log [Lit "🔧 Configuration Status:"];
                   console_log [Lit "   Client ID: ✅ Set"];
                   console_log [Lit "   Client Secret: ✅ Set"];
                   console_log
                     [Lit (ConfigManager.statusLine "Username" (truthy (username c)))];
                   console_log
                     [Lit (ConfigManager.statusLine "Password" (truthy (password c)))];
                   console_log
                     [Lit (ConfigManager.statusLine "Security Token"
                             (truthy (securityToken c)))];
                   console_log
                     [Lit (ConfigManager.statusLine "Access Token"
                             (truthy (accessToken c)))];
                   console_log
                     [Lit (ConfigManager.statusLine "Instance URL"
                             (truthy (instanceUrl c)))];
                   console_log
                     [Lit ("   Sandbox: " +:+
                           (if sandbox c then "✅ Enabled" else "❌ Disabled"))]]
    end
  else ConfigManager.logConfigStatus env w = (None, w).
Proof.
  intros Hdebug. unfold ConfigManager.logConfigStatus.
  destruct (ConfigManager.debugRequested env); [|done].
  destruct (ConfigManager.getSalesforceConfig env) as [e|c] eqn:Hc; [done|].
  apply getSalesforceConfig_identity in Hc as [Hid Hsec].
  eexists. split; [reflexivity|].
  rewrite Hid, Hsec.
  rewrite !console_debugLog, !debugEnabled_debugLog, Hdebug.
  rewrite <- !app_assoc. reflexivity.
Qed.

Lemma logConfigStatus_never_reports_missing_identity_witness :
  ConfigManager.logConfigStatus ServerScenario.debugEnv Scenario.verbose
  = (Some (JsError
       "Missing required environment variables: SALESFORCE_CLIENT_ID and SALESFORCE_CLIENT_SECRET must be set"),
     Scenario.verbose).
Proof.
  assert (Hd : ConfigManager.debugRequested ServerScenario.debugEnv = true)
    by (vm_compute; reflexivity).
  pose proof (logConfigStatus_never_reports_missing_identity
                ServerScenario.debugEnv Scenario.verbose (eq_sym Hd)) as H.
  assert (Hc : ConfigManager.getSalesforceConfig ServerScenario.debugEnv
               = inl (JsError
                   "Missing required environment variables: SALESFORCE_CLIENT_ID and SALESFORCE_CLIENT_SECRET must be set"))
    by (vm_compute; reflexivity).
  rewrite Hd, Hc in H. exact H.
Defined.

(** *** The tool handlers, continued *)

(** X27. [handleAuthenticatePassword] rejects its input before it
    touches anything: with the username or the password missing or
    empty, or with the client identity missing from the environment,
    it throws, sends nothing, and the server keeps the client (and
    the session) it had. *)
Theorem handleAuthenticatePassword_rejects_before_replacing {T : Type}
    (env : gmap string string)
    (axios : list NetCall -> AxiosRequestConfig -> AxiosResult T)
    axios_post args this w :
  truthy (SalesforceMCPServer.a_username args) = false
  \/ truthy (SalesforceMCPServer.a_password args) = false
  \/ (exists error, ConfigManager.getSalesforceConfig env = inl error) ->
  exists error,
    SalesforceMCPServer.handleAuthenticatePassword env axios axios_post args this w
    = (Throw error, this, w).
Proof.
  unfold SalesforceMCPServer.handleAuthenticatePassword.
  intros [Hu|[Hp|[error Henv]]].
  - rewrite Hu. by eexists.
  - rewrite Hp, orb_true_r. by eexists.
  - destruct (_ || _); [by eexists|]. rewrite Henv. by eexists.
Qed.

Lemma handleAuthenticatePassword_rejects_before_replacing_witness :
  exists error,
    SalesforceMCPServer.handleAuthenticatePassword ServerScenario.bareEnv
      (Scenario.scripted (T := string) [])
      (Scenario.scriptedPost [Scenario.ok (Scenario.grant "fresh-token" None)])
      {| SalesforceMCPServer.a_username := Some "u@x.com";
         SalesforceMCPServer.a_password := Some "";
         SalesforceMCPServer.a_security_token := None;
         SalesforceMCPServer.a_sandbox := None |}
      ServerScenario.warmServer Scenario.quiet
    = (Throw error, ServerScenario.warmServer, Scenario.quiet).
Proof.
  apply handleAuthenticatePassword_rejects_before_replacing.
  right. left. reflexivity.
Defined.

(** X28. With a live token pair in the environment
    [handleAuthenticatePassword] never checks the password: the probe
    of the token succeeds, the handler reports success for the
    instance URL of the environment after that single request, and
    the username and password of the arguments are sent nowhere. *)
Theorem handleAuthenticatePassword_with_live_token_skips_the_password {T : Type}
    (env : gmap string string)
    (axios : list NetCall -> AxiosRequestConfig -> AxiosResult T)
    axios_post args this w c st d :
  truthy (SalesforceMCPServer.a_username args) = true ->
  truthy (SalesforceMCPServer.a_password args) = true ->
  ConfigManager.getSalesforceConfig env = inr c ->
  truthy (accessToken c) = true ->
  truthy (instanceUrl c) = true ->
  let probe := requestConfig (passwordClient c args) GET "/sobjects" None None in
  axios (calls w) probe = Resolved {| status := st; data := d |} ->
  let result :=
    SalesforceMCPServer.handleAuthenticatePassword env axios axios_post args this w in
  result.1.1
  = Return (SalesforceMCPServer.textResult
      ("✅ Password authentication successful!" +:+ newline
       +:+ "Connected to: " +:+ template (instanceUrl c) +:+ newline
       +:+ "You can now use other Salesforce tools."))
  /\ calls result.2 = calls w ++ [AxiosCall probe]
  /\ SalesforceMCPServer.salesforceClient result.1.2 = passwordClient c args.
Proof.
  intros Hu Hp Hc Ha Hi probe Hprobe result. subst result.
  rewrite (handleAuthenticatePassword_eq env axios axios_post _ _ _ _ Hu Hp Hc).
  rewrite connect_eq.
  change (accessToken (config (passwordClient c args))) with (accessToken c).
  change (instanceUrl (config (passwordClient c args))) with (instanceUrl c).
  rewrite Ha, Hi. cbn [andb].
  rewrite (makeRequest_resolved axios axios_post GET "/sobjects" None None
             (passwordClient c args) _ st d Ha Hi)
    by (rewrite calls_debugLog; exact Hprobe).
  cbn [fst snd]. fold probe.
  apply truthy_Some in Hi as (iu & Hiu & _).
  split; [|split; [by log_calls|done]].
  unfold getInstanceUrl.
  change (instanceUrl (config (passwordClient c args))) with (instanceUrl c).
  by rewrite Hiu.
Qed.

Lemma handleAuthenticatePassword_with_live_token_skips_the_password_witness :
  let result :=
    SalesforceMCPServer.handleAuthenticatePassword
      (list_to_map [("SALESFORCE_CLIENT_ID", "id1");
                    ("SALESFORCE_CLIENT_SECRET", "sec1");
                    ("SALESFORCE_ACCESS_TOKEN", "valid-token");
                    ("SALESFORCE_INSTANCE_URL", "https://test.salesforce.com")])
      (Scenario.scripted [Scenario.ok "object types"]) (Scenario.scriptedPost [])
      ServerScenario.passwordArgs ServerScenario.coldServer Scenario.quiet in
  (exists r, result.1.1 = Return r)
  /\ tokenPosts (calls result.2) = []
  /\ List.length (dataCalls (calls result.2)) = 1.
Proof.
  intros result.
  destruct (handleAuthenticatePassword_with_live_token_skips_the_password
              (list_to_map [("SALESFORCE_CLIENT_ID", "id1");
                            ("SALESFORCE_CLIENT_SECRET", "sec1");
                            ("SALESFORCE_ACCESS_TOKEN", "valid-token");
                            ("SALESFORCE_INSTANCE_URL", "https://test.salesforce.com")])
              (Scenario.scripted [Scenario.ok "object types"]) (Scenario.scriptedPost [])
              ServerScenario.passwordArgs ServerScenario.coldServer Scenario.quiet
              Scenario.tokenConfig 200 "object types" eq_refl eq_refl)
    as (Hresult & Hcalls & _); [vm_compute; reflexivity|reflexivity..|].
  fold result in Hresult, Hcalls.
  split; [by eexists|]. rewrite Hcalls. split; reflexivity.
Defined.
